(** * pycall.callfile: a shallow embedding of [CallFile] and its properties

    The development follows [src/pycall/callfile.py].  The Python fragment
    the file needs (dynamically typed values, truth testing, string
    concatenation and [%s] formatting, exceptions, attribute lookup) is in
    module [Py]; the operating-system calls the file makes ([mkstemp],
    [getpwnam], [chown], [mktime], [utime], [move]) are in module [Sys];
    the class itself is in module [callfile].  Modules [Samples], [Layout]
    and [Exceptions] hold the concrete requests and the vocabulary of the
    statements.  Lemmas and theorems come last. *)

From Stdlib Require Import ZArith List String Ascii Bool.
From Stdlib Require Import DecimalString.
Import ListNotations.
Open Scope string_scope.

(* ================================================================== *)
(** * The Python fragment *)

Module Py.

#[local] Set Warnings "-register-all".

(** Values.  [VObject cls text] is an instance of a plain class defined
    outside this file (a [pycall.Call], a [pycall.actions.Application], a
    function object ...): it is represented by its class name and by the text
    [str()] gives for it, the only things this file can observe of it. *)
Inductive value : Type :=
| VNone
| VBool (b : bool)
| VInt (n : Z)
| VStr (s : string)
| VDict (items : list (value * value))
| VObject (cls : string) (text : string).

(** The exceptions that can travel through this file: the builtin ones
    raised by the interpreter and the library calls, and the classes that
    [from .errors import *] brings in, one constructor per class. *)
Inductive exn : Type :=
| AttributeError | NameError | TypeError | ValueError | KeyError | OSError
| OverflowError
| UnknownError | NoChannelDefinedError | NoActionDefinedError
| NoUserError | NoUserPermissionError | NoSpoolPermissionError.

(** An evaluation returns a value or raises. *)
Inductive outcome (A : Type) : Type :=
| Ok (a : A)
| Raise (e : exn).
Arguments Ok {A} a.
Arguments Raise {A} e.

Definition bind {A B} (m : outcome A) (k : A -> outcome B) : outcome B :=
  match m with
  | Ok a => k a
  | Raise e => Raise e
  end.

Declare Scope py_scope.
Delimit Scope py_scope with py.
Notation "x <- m ; k" := (bind m (fun x => k))
  (at level 61, m at next level, right associativity) : py_scope.

(** Truth value testing ([if x:], [x or y], [x and y]). *)
Definition truthy (v : value) : bool :=
  match v with
  | VNone => false
  | VBool b => b
  | VInt n => negb (n =? 0)%Z
  | VStr s => negb (String.eqb s "")
  | VDict items => match items with [] => false | _ :: _ => true end
  | VObject _ _ => true
  end.

(** [str(n)] for an integer. *)
Definition str_of_int (n : Z) : string := NilZero.string_of_int (Z.to_int n).

(** [repr(s)] for a string (Python 3), the characters of a [string] being
    code points below 256: in single quotes, unless the string has a single
    quote and no double quote; backslash, the chosen quote and the
    characters that are not printable are escaped. *)
Definition squote : ascii := "039"%char.
Definition dquote : ascii := "034"%char.
Definition backslash : ascii := "092"%char.

Definition hex_digit (n : N) : ascii :=
  match n with
  | 0 => "0" | 1 => "1" | 2 => "2" | 3 => "3" | 4 => "4" | 5 => "5" | 6 => "6"
  | 7 => "7" | 8 => "8" | 9 => "9" | 10 => "a" | 11 => "b" | 12 => "c"
  | 13 => "d" | 14 => "e" | _ => "f"
  end%N%char.

Fixpoint has_char (c : ascii) (s : string) : bool :=
  match s with
  | EmptyString => false
  | String d r => Ascii.eqb c d || has_char c r
  end.

Definition printable (c : ascii) : bool :=
  let n := N_of_ascii c in
  ((32 <=? n) && (n <? 127) || (161 <=? n) && negb (n =? 173))%N.

Fixpoint repr_chars (quote : ascii) (s : string) : string :=
  match s with
  | EmptyString => EmptyString
  | String c r =>
      let rest := repr_chars quote r in
      if Ascii.eqb c quote || Ascii.eqb c backslash then String backslash (String c rest)
      else if Ascii.eqb c "009"%char then String backslash (String "t" rest)
      else if Ascii.eqb c "010"%char then String backslash (String "n" rest)
      else if Ascii.eqb c "013"%char then String backslash (String "r" rest)
      else if printable c then String c rest
      else let n := N_of_ascii c in
           String backslash
             (String "x" (String (hex_digit (n / 16)) (String (hex_digit (n mod 16)) rest)))
  end.

Definition repr_str (s : string) : string :=
  let quote : ascii :=
    if has_char squote s && negb (has_char dquote s) then dquote else squote in
  String quote (repr_chars quote s ++ String quote EmptyString).

(** [repr(v)], which is what [str()] shows of the members of a dict. *)
Fixpoint repr (v : value) : string :=
  match v with
  | VNone => "None"
  | VBool true => "True"
  | VBool false => "False"
  | VInt n => str_of_int n
  | VStr s => repr_str s
  | VDict items =>
      "{" ++ String.concat ", "
               (map (fun kv => repr (fst kv) ++ ": " ++ repr (snd kv)) items) ++ "}"
  | VObject _ text => text
  end.

(** [str(v)], which is what ['%s' % v] inserts. *)
Definition str (v : value) : string :=
  match v with
  | VStr s => s
  | _ => repr v
  end.

(** The interpreter refuses to write an integer of more than
    [int_max_str_digits] decimal digits, the sign not counted, as text:
    [str], [repr] and [%s] raise [ValueError] for it (the default limit of
    Python 3.11 and later). *)
Definition int_max_str_digits : nat := 4300.

Definition digits (n : Z) : nat := String.length (str_of_int (Z.abs n)).

(** The values [str()] returns for: everything but an integer beyond the
    limit, or a dict holding one. *)
Fixpoint convertible (v : value) : bool :=
  match v with
  | VInt n => Nat.leb (digits n) int_max_str_digits
  | VDict items =>
      forallb (fun kv => convertible (fst kv) && convertible (snd kv)) items
  | _ => true
  end.

(** ['%s' % v]: the text [str(v)], or the [ValueError] of the
    conversion. *)
Definition format_s (v : value) : outcome string :=
  if convertible v then Ok (str v) else Raise ValueError.

(** ['literal' + v]: concatenation with a [str] on the left needs a [str]
    on the right. *)
Definition str_add (lit : string) (v : value) : outcome string :=
  match v with
  | VStr s => Ok (lit ++ s)
  | _ => Raise TypeError
  end.

(** Reading an attribute that may be missing from the instance. *)
Definition getattr {O : Type} (field : O -> option value) (self : O) : outcome value :=
  match field self with
  | Some v => Ok v
  | None => Raise AttributeError
  end.

(** [d.items()]: only a dict has the method. *)
Definition items (v : value) : outcome (list (value * value)) :=
  match v with
  | VDict kvs => Ok kvs
  | _ => Raise AttributeError
  end.

End Py.

Import Py.
Open Scope py_scope.

(* ================================================================== *)
(** * The operating system *)

Module Sys.

(** A [datetime.datetime], as far as [timetuple()] keeps it. *)
Record datetime : Type := mk_datetime {
  dt_year : Z; dt_month : Z; dt_day : Z;
  dt_hour : Z; dt_minute : Z; dt_second : Z
}.

(** The calls [callfile.py] makes into the system.  A run is observed
    through the sequence of calls it made. *)
Inductive syscall : Type :=
| Mkstemp (suffix : string) (dir : option string)
| WriteFile (fname : string) (content : string)
| Getpwnam (name : string)
| Chown (fname : string) (uid gid : Z)
| Mktime (t : datetime)
| Utime (fname : string) (atime mtime : Z)
| Move (src dst : string).

Definition trace := list syscall.

(** How the system answers each call: the name [mkstemp] creates, the
    password database, and which of the other calls fail. *)
Record OS : Type := mk_OS {
  os_mkstemp : string -> option string -> option string;
  os_write : string -> string -> bool;
  os_getpwnam : string -> option (Z * Z);
  os_chown : string -> Z -> Z -> bool;
  os_mktime : datetime -> option Z;
  os_utime : string -> Z -> Z -> bool;
  os_move : string -> string -> bool
}.

(** Code that calls the system: it extends the trace and returns or
    raises. *)
Definition M (A : Type) : Type := trace -> outcome A * trace.

Definition ret {A} (a : A) : M A := fun tr => (Ok a, tr).
Definition raise {A} (e : exn) : M A := fun tr => (Raise e, tr).
Definition lift {A} (o : outcome A) : M A := fun tr => (o, tr).
Definition perform (c : syscall) : M unit := fun tr => (Ok tt, (tr ++ [c])%list).

Definition bindM {A B} (m : M A) (k : A -> M B) : M B :=
  fun tr =>
    match m tr with
    | (Ok a, tr') => k a tr'
    | (Raise e, tr') => (Raise e, tr')
    end.

(** [try: body  except: handler] with a bare [except], which catches every
    exception whatever its class. *)
Definition try_except {A} (body handler : M A) : M A :=
  fun tr =>
    match body tr with
    | (Ok a, tr') => (Ok a, tr')
    | (Raise _, tr') => handler tr'
    end.

Declare Scope sys_scope.
Delimit Scope sys_scope with sys.
Notation "x <- m ; k" := (bindM m (fun x => k))
  (at level 61, m at next level, right associativity) : sys_scope.
Notation "m ;; k" := (bindM m (fun _ => k))
  (at level 61, right associativity) : sys_scope.
#[local] Open Scope sys_scope.

(** A name with a NUL character cannot be handed to the system: the call
    that would pass it raises [ValueError] before anything is asked. *)
Definition has_nul (name : string) : bool := has_char "000"%char name.

(** [tempfile.mkstemp(suffix, dir=...)] for a directory given as text (or
    left to the default): the name of the file created.  When the file
    cannot be made, it is with [ValueError] and no call for a directory
    name with a NUL character, with [OSError] from the system otherwise. *)
Definition make_temp (os : OS) (suffix : string) (dir : option string) : M string :=
  match os_mkstemp os suffix dir with
  | Some fname => perform (Mkstemp suffix dir);; ret fname
  | None =>
      if match dir with Some d => has_nul d | None => false end
      then raise ValueError
      else (perform (Mkstemp suffix dir);; raise OSError)
  end.

(** [tempfile.mkstemp(suffix, dir=...)]: a [dir] that is not text is a
    [TypeError]. *)
Definition mkstemp (os : OS) (suffix : string) (dir : option value) : M string :=
  match dir with
  | None => make_temp os suffix None
  | Some (VStr d) => make_temp os suffix (Some d)
  | Some _ => raise TypeError
  end.

(** [with fdopen(file, 'w') as f: f.write(...)], the whole text at once. *)
Definition write (os : OS) (fname content : string) : M unit :=
  perform (WriteFile fname content);;
  if os_write os fname content then ret tt else raise OSError.

(** [pwd.getpwnam(name)], of which the code keeps fields 2 and 3.  A name
    that is not text is a [TypeError]; a name with a NUL character is a
    [ValueError] and no call; an unknown name is the [KeyError] of the
    database. *)
Definition getpwnam (os : OS) (name : value) : M (Z * Z) :=
  match name with
  | VStr n =>
      match os_getpwnam os n with
      | Some ids => perform (Getpwnam n);; ret ids
      | None =>
          if has_nul n then raise ValueError
          else (perform (Getpwnam n);; raise KeyError)
      end
  | _ => raise TypeError
  end.

Definition chown (os : OS) (fname : string) (uid gid : Z) : M unit :=
  perform (Chown fname uid gid);;
  if os_chown os fname uid gid then ret tt else raise OSError.

(** [mktime(time.timetuple())]: [None] has no [timetuple]. *)
Definition mktime_timetuple (os : OS) (time : option datetime) : M Z :=
  match time with
  | None => raise AttributeError
  | Some t =>
      perform (Mktime t);;
      match os_mktime os t with
      | Some secs => ret secs
      | None => raise OverflowError
      end
  end.

Definition utime (os : OS) (fname : string) (atime mtime : Z) : M unit :=
  perform (Utime fname atime mtime);;
  if os_utime os fname atime mtime then ret tt else raise OSError.

Definition move (os : OS) (src dst : string) : M unit :=
  perform (Move src dst);;
  if os_move os src dst then ret tt else raise OSError.

(** [path.basename(fname)].  Line 10, [from path import path], rebinds the
    [path] of line 8 to the class of the [path] module, so this is a method
    of that class called through the class, with the plain [str] that
    [mkstemp] returned where an instance is expected.  The call raises and
    returns no name: [AttributeError] inside the method on Python 3
    ([TypeError] on the unbound method on Python 2). *)
Definition path_basename (fname : string) : outcome string :=
  Raise AttributeError.

End Sys.

Import Sys.

(* ================================================================== *)
(** * The class [CallFile] *)

Module callfile.

(** ** Names at module level

    A name used inside a method that is not one of its locals is looked up
    in the module's globals.  A class body is not a scope for the methods
    defined in it, so a class attribute is reachable from a method through
    [self] or the class only.  The globals of [callfile.py] are what its
    imports bind and the class itself; [from .errors import *] binds whatever
    that module exports, which is a parameter here.  A later binding shadows
    an earlier one. *)
Definition namespace := list (string * value).

Fixpoint lookup (name : string) (ns : namespace) : option value :=
  match ns with
  | [] => None
  | (n, v) :: rest => if String.eqb n name then Some v else lookup name rest
  end.

Definition imported (cls name : string) : string * value :=
  (name, VObject cls ("<" ++ cls ++ " " ++ name ++ ">")).

Definition module_globals (errors_exports : namespace) : namespace :=
  ([imported "class" "CallFile"]
   ++ errors_exports
   ++ [imported "class" "Context"; imported "class" "Application";
       imported "class" "Call"; imported "class" "path";
       imported "function" "fdopen"; imported "function" "utime";
       imported "function" "chown"; imported "function" "mkstemp";
       imported "function" "getpwnam"; imported "function" "mktime";
       imported "function" "move"])%list.

(** Evaluating a global name (no builtin is called [DEFAULT_SPOOL_DIR], the
    one name this is used for). *)
Definition load_global (G : namespace) (name : string) : outcome value :=
  match lookup name G with
  | Some v => Ok v
  | None => Raise NameError
  end.

(** ** Instances

    An instance is its attribute dictionary over the attribute names the
    class reads or writes; [None] is an attribute the instance does not
    have.  [__init__] sets the first eight; the rest are read by
    [_buildfile] and set by nothing in this file. *)
Record CallFile : Type := mk_CallFile {
  call : option value;
  action : option value;
  set_var : option value;
  archive : option value;
  user : option value;
  tmpdir : option value;
  file_name : option value;
  spool_dir : option value;
  channel : option value;
  application : option value;
  data : option value;
  context : option value;
  extension : option value;
  priority : option value;
  callerid : option value;
  wait_time : option value;
  max_retries : option value;
  retry_time : option value;
  account : option value
}.

(** The default spooling directory, a class attribute. *)
Definition DEFAULT_SPOOL_DIR : string := "/var/spool/asterisk/outgoing".

(** [CallFile(call, action, set_var, archive, user, tmpdir, file_name,
    spool_dir)], each optional argument [VNone] when left out.  The default
    is named without [self.] or [CallFile.], hence looked up in the
    globals [G]. *)
Definition __init__ (G : namespace)
    (call action set_var archive user tmpdir file_name spool_dir : value)
    : outcome CallFile :=
  spool <- (if truthy spool_dir then Ok spool_dir
            else load_global G "DEFAULT_SPOOL_DIR");
  Ok {| call := Some call; action := Some action; set_var := Some set_var;
        archive := Some archive; user := Some user; tmpdir := Some tmpdir;
        file_name := Some file_name; spool_dir := Some spool;
        channel := None; application := None; data := None;
        context := None; extension := None; priority := None;
        callerid := None; wait_time := None; max_retries := None;
        retry_time := None; account := None |}.

Definition _is_valid (self : CallFile) : outcome value := Ok (VBool true).

(** [self.context and self.extension and self.priority], left to right,
    stopping at the first false operand. *)
Definition context_action_given (self : CallFile) : outcome bool :=
  c <- getattr context self;
  if truthy c then
    (e <- getattr extension self;
     if truthy e then (p <- getattr priority self; Ok (truthy p)) else Ok false)
  else Ok false.

(** ['Key: %s' % v] appended when [v] is true. *)
Definition append_if (cf : list string) (key : string) (v : value)
    : outcome (list string) :=
  if truthy v then
    (text <- format_s v;
     Ok (cf ++ [(key ++ ": " ++ text)%string])%list)
  else Ok cf.

(** The text of ['Set: %s=%s' % (var, value)]. *)
Definition set_line (kv : value * value) : string :=
  "Set: " ++ str (fst kv) ++ "=" ++ str (snd kv).

(** ['Set: %s=%s' % (var, value)]: both are converted. *)
Definition format_set_line (kv : value * value) : outcome string :=
  var <- format_s (fst kv);
  val <- format_s (snd kv);
  Ok ("Set: " ++ var ++ "=" ++ val).

(** The loop of lines 84 and 85. *)
Fixpoint append_set_lines (cf : list string) (kvs : list (value * value))
    : outcome (list string) :=
  match kvs with
  | [] => Ok cf
  | kv :: rest =>
      line <- format_set_line kv;
      append_set_lines (cf ++ [line])%list rest
  end.

(** Lines 70 to 105 of [_buildfile], what follows the validity check. *)
Definition _buildfile_body (self : CallFile) : outcome (list string) :=
  let cf : list string := [] in
  v_channel <- getattr channel self;
  line <- str_add "Channel: " v_channel;
  let cf := (cf ++ [line])%list in
  v_application <- getattr application self;
  cf <- (if truthy v_application then
           (line <- str_add "Application: " v_application;
            let cf := (cf ++ [line])%list in
            v_data <- getattr data self;
            line <- str_add "Data: " v_data;
            Ok (cf ++ [line])%list)
         else
           (given <- context_action_given self;
            if given then
              (v_context <- getattr context self;
               line <- str_add "Context: " v_context;
               let cf := (cf ++ [line])%list in
               v_extension <- getattr extension self;
               line <- str_add "Extension: " v_extension;
               let cf := (cf ++ [line])%list in
               v_priority <- getattr priority self;
               line <- str_add "Priority: " v_priority;
               Ok (cf ++ [line])%list)
            else Raise UnknownError));
  v_set_var <- getattr set_var self;
  cf <- (if truthy v_set_var then
           (kvs <- items v_set_var;
            append_set_lines cf kvs)
         else Ok cf);
  v_callerid <- getattr callerid self;
  cf <- append_if cf "Callerid" v_callerid;
  v_wait_time <- getattr wait_time self;
  cf <- append_if cf "WaitTime" v_wait_time;
  v_max_retries <- getattr max_retries self;
  cf <- append_if cf "Maxretries" v_max_retries;
  v_retry_time <- getattr retry_time self;
  cf <- append_if cf "RetryTime" v_retry_time;
  v_account <- getattr account self;
  cf <- append_if cf "Account" v_account;
  v_archive <- getattr archive self;
  let cf := if truthy v_archive then (cf ++ ["Archive: yes"])%list else cf in
  Ok cf.

Definition _buildfile (self : CallFile) : outcome (list string) :=
  valid <- _is_valid self;
  if negb (truthy valid) then Raise UnknownError
  else _buildfile_body self.

Definition newline : string := String "010"%char EmptyString.

(** The [contents] property. *)
Definition contents (self : CallFile) : outcome string :=
  cf <- _buildfile self;
  Ok (String.concat newline cf).

Definition _writefile (os : OS) (self : CallFile) (cf : list string) : M string :=
  (v_tmpdir <- lift (getattr tmpdir self);
  fname <- (if truthy v_tmpdir then mkstemp os ".call" (Some v_tmpdir)
            else mkstemp os ".call" None);
  write os fname (String.concat "" (map (fun line => line ++ newline) cf));;
  ret fname)%sys.

Definition spool (os : OS) (self : CallFile) : M value :=
  raise NoActionDefinedError.

(** Lines 152 to 163 of [run]: ownership.  The inner [try] is inside the
    outer one. *)
Definition run_ownership (os : OS) (self : CallFile) (fname : string) : M unit :=
  (v_user <- lift (getattr user self);
  if truthy v_user then
    try_except
      (pwd <- getpwnam os v_user;
       let uid := fst pwd in
       let gid := snd pwd in
       try_except (chown os fname uid gid) (raise NoUserPermissionError))
      (raise NoUserError)
  else ret tt)%sys.

(** Lines 168 to 172 of [run]: the time stamp. *)
Definition run_timestamp (os : OS) (fname : string) (time : option datetime) : M unit :=
  (try_except
    (secs <- mktime_timetuple os time;
     utime os fname secs secs)
    (ret tt))%sys.

(** [self.spool_dir+path.basename(fname)]. *)
Definition add_str (v : value) (s : string) : outcome string :=
  match v with
  | VStr d => Ok (d ++ s)
  | _ => Raise TypeError
  end.

(** Lines 174 to 177 of [run]: the move into the spool directory. *)
Definition run_move (os : OS) (self : CallFile) (fname : string) : M unit :=
  (try_except
    (v_spool_dir <- lift (getattr spool_dir self);
     base <- lift (path_basename fname);
     dst <- lift (add_str v_spool_dir base);
     move os fname dst)
    (raise NoSpoolPermissionError))%sys.

Definition run (os : OS) (self : CallFile) (time : option datetime) : M value :=
  (cf <- lift (_buildfile self);
  fname <- _writefile os self cf;
  run_ownership os self fname;;
  run_timestamp os fname time;;
  run_move os self fname;;
  ret (VBool true))%sys.

(** [self.name = v] from outside the class, for one of the attribute names
    above: the way an instance gets the attributes [__init__] does not set. *)
Definition setattr (self : CallFile) (name : string) (v : value) : CallFile :=
  let upd (n : string) (old : option value) : option value :=
    if String.eqb n name then Some v else old in
  {| call := upd "call" (call self); action := upd "action" (action self);
     set_var := upd "set_var" (set_var self); archive := upd "archive" (archive self);
     user := upd "user" (user self); tmpdir := upd "tmpdir" (tmpdir self);
     file_name := upd "file_name" (file_name self);
     spool_dir := upd "spool_dir" (spool_dir self);
     channel := upd "channel" (channel self);
     application := upd "application" (application self);
     data := upd "data" (data self); context := upd "context" (context self);
     extension := upd "extension" (extension self);
     priority := upd "priority" (priority self);
     callerid := upd "callerid" (callerid self);
     wait_time := upd "wait_time" (wait_time self);
     max_retries := upd "max_retries" (max_retries self);
     retry_time := upd "retry_time" (retry_time self);
     account := upd "account" (account self) |}.

Definition assign (self : CallFile) (fields : list (string * value)) : CallFile :=
  fold_left (fun obj nv => setattr obj (fst nv) (snd nv)) fields self.

End callfile.

Import callfile.

(* ================================================================== *)
(** * Sample requests and systems *)

Module Samples.

(** What [from .errors import *] is taken to bind in the examples: the
    exception classes this file raises or documents. *)
Definition errors_module : namespace :=
  [imported "class" "UnknownError"; imported "class" "NoChannelDefinedError";
   imported "class" "NoActionDefinedError"; imported "class" "NoUserError";
   imported "class" "NoUserPermissionError";
   imported "class" "NoSpoolPermissionError"].

Definition G : namespace := module_globals errors_module.

(** [Call('SIP/1234')] and [Application('Playback', 'hello-world')]. *)
Definition sip_call : value := VObject "Call" "<pycall.call.Call object>".
Definition playback : value :=
  VObject "Application" "<pycall.actions.Application object>".

(** [CallFile(sip_call, playback, user=user, spool_dir=spool_dir)], as
    [__init__] leaves it. *)
Definition constructed (user spool_dir : value) : CallFile :=
  {| call := Some sip_call; action := Some playback; set_var := Some VNone;
     archive := Some VNone; user := Some user; tmpdir := Some VNone;
     file_name := Some VNone; spool_dir := Some spool_dir;
     channel := None; application := None; data := None;
     context := None; extension := None; priority := None;
     callerid := None; wait_time := None; max_retries := None;
     retry_time := None; account := None |}.

(** The same instance once the attributes [_buildfile] reads have been
    assigned on it: the target's and the action's fields, all unset. *)
Definition unset_fields : list (string * value) :=
  [("channel", VNone); ("application", VNone); ("data", VNone);
   ("context", VNone); ("extension", VNone); ("priority", VNone);
   ("callerid", VNone); ("wait_time", VNone); ("max_retries", VNone);
   ("retry_time", VNone); ("account", VNone)].

Definition blank (user spool_dir : value) : CallFile :=
  assign (constructed user spool_dir) unset_fields.

(** Channel [SIP/1234], application [Playback] with data [hello-world]. *)
Definition playback_fields : list (string * value) :=
  [("channel", VStr "SIP/1234"); ("application", VStr "Playback");
   ("data", VStr "hello-world")].

Definition playback_request (user spool_dir : value) : CallFile :=
  assign (blank user spool_dir) playback_fields.

(** A system where [mkstemp] creates [tmpk3x9.call], user [asterisk] is
    101:102, and the remaining answers are as given. *)
Definition system (chown_ok mktime_ok utime_ok move_ok : bool) : OS :=
  {| os_mkstemp := fun suffix dir =>
       Some ((match dir with Some d => d | None => "/tmp" end)
             ++ "/tmpk3x9" ++ suffix);
     os_write := fun _ _ => true;
     os_getpwnam := fun n =>
       if String.eqb n "asterisk" then Some (101, 102)%Z else None;
     os_chown := fun _ _ _ => chown_ok;
     os_mktime := fun _ => if mktime_ok then Some 1300000000%Z else None;
     os_utime := fun _ _ _ => utime_ok;
     os_move := fun _ _ => move_ok |}.

Definition playback_text : string :=
  String.concat "" (map (fun line => line ++ newline)
    ["Channel: SIP/1234"; "Application: Playback"; "Data: hello-world"]).

(** The spool directory as the class names it, without a final slash. *)
Definition spool_path : string := "/var/spool/asterisk/outgoing".

(** A request with every optional field set. *)
Definition full_request : CallFile :=
  assign (playback_request VNone (VStr spool_path))
    [("set_var", VDict [(VStr "FOO", VStr "1"); (VStr "BAR", VStr "2")]);
     ("callerid", VStr "555"); ("wait_time", VInt 30); ("max_retries", VInt 2);
     ("retry_time", VInt 60); ("account", VStr "acct"); ("archive", VBool true)].

Definition full_lines : list string :=
  ["Channel: SIP/1234"; "Application: Playback"; "Data: hello-world";
   "Set: FOO=1"; "Set: BAR=2"; "Callerid: 555"; "WaitTime: 30";
   "Maxretries: 2"; "RetryTime: 60"; "Account: acct"; "Archive: yes"].

(** Channel [SIP/1234], context [default], extension [s], priority [1],
    archived. *)
Definition context_request : CallFile :=
  assign (blank VNone (VStr spool_path))
    [("channel", VStr "SIP/1234"); ("context", VStr "default");
     ("extension", VStr "s"); ("priority", VStr "1"); ("archive", VBool true)].

(** The playback request with the context attributes set as well. *)
Definition both_actions_request : CallFile :=
  assign (playback_request VNone (VStr spool_path))
    [("context", VStr "default"); ("extension", VStr "s"); ("priority", VStr "1")].


(** A system in which no call succeeds. *)
Definition read_only_tmp : OS :=
  {| os_mkstemp := fun _ _ => None;
     os_write := fun _ _ => false;
     os_getpwnam := fun _ => None;
     os_chown := fun _ _ _ => false;
     os_mktime := fun _ => None;
     os_utime := fun _ _ _ => false;
     os_move := fun _ _ => false |}.

End Samples.

Import Samples.

(* ================================================================== *)
(** * The layout of a rendered call file *)

Module Layout.

(** The line of one optional field: present in the output when the value
    is true, which is how [_buildfile] tests every optional field. *)
Definition directive (key : string) (v : value) : list string :=
  if truthy v then [key ++ ": " ++ str v] else [].

Definition set_directives (v : value) : list string :=
  match v with
  | VDict kvs => map set_line kvs
  | _ => []
  end.

Definition archive_directive (v : value) : list string :=
  if truthy v then ["Archive: yes"] else [].

(** Lines 83 to 103: the optional directives, in the order they are
    appended. *)
Definition option_lines (sv cid wt mr rt acc ar : value) : list string :=
  (set_directives sv ++ directive "Callerid" cid ++ directive "WaitTime" wt
   ++ directive "Maxretries" mr ++ directive "RetryTime" rt
   ++ directive "Account" acc ++ archive_directive ar)%list.

(** Lines 71 to 79: the channel line and the lines of the action. *)
Definition application_head (self : CallFile) (head : list string) : Prop :=
  exists c n d,
    channel self = Some (VStr c) /\ application self = Some (VStr n) /\
    n <> "" /\ data self = Some (VStr d) /\
    head = ["Channel: " ++ c; "Application: " ++ n; "Data: " ++ d].

Definition context_head (self : CallFile) (head : list string) : Prop :=
  exists c a x e p,
    channel self = Some (VStr c) /\ application self = Some a /\
    truthy a = false /\ context self = Some (VStr x) /\
    extension self = Some (VStr e) /\ priority self = Some (VStr p) /\
    x <> "" /\ e <> "" /\ p <> "" /\
    head = ["Channel: " ++ c; "Context: " ++ x; "Extension: " ++ e;
            "Priority: " ++ p].

(** A line of the context action. *)
Definition is_context_line (line : string) : bool :=
  prefix "Context:" line || prefix "Extension:" line || prefix "Priority:" line.

End Layout.

Import Layout.

(* ================================================================== *)
(** * Sets of exceptions *)

Module Exceptions.

(** Every exception the evaluation can raise satisfies [P]. *)
Definition raises_only {A} (P : exn -> Prop) (m : outcome A) : Prop :=
  forall e, m = Raise e -> P e.

(** The same for code that calls the system. *)
Definition raisesM_only {A} (P : exn -> Prop) (m : M A) : Prop :=
  forall tr e tr', m tr = (Raise e, tr') -> P e.

(** What [_buildfile] can raise: a missing attribute, a value that is not a
    string where one is concatenated, an integer too long to be written, or
    [UnknownError] from line 81. *)
Definition buildfile_exn (e : exn) : Prop :=
  e = AttributeError \/ e = TypeError \/ e = UnknownError \/ e = ValueError.

(** What [run] can raise.  [NoUserPermissionError] is not among them. *)
Definition run_exn (e : exn) : Prop :=
  buildfile_exn e \/ e = OSError \/ e = NoUserError \/ e = NoSpoolPermissionError.

End Exceptions.

Import Exceptions.

(* ================================================================== *)
(** * The parts of [_buildfile] and of a run *)

Module Parts.

(** Lines 70 to 81 of [_buildfile]: the channel line and the action. *)
Definition _buildfile_action (self : CallFile) : outcome (list string) :=
  let cf : list string := [] in
  v_channel <- getattr channel self;
  line <- str_add "Channel: " v_channel;
  let cf := (cf ++ [line])%list in
  v_application <- getattr application self;
  if truthy v_application then
    (line <- str_add "Application: " v_application;
     let cf := (cf ++ [line])%list in
     v_data <- getattr data self;
     line <- str_add "Data: " v_data;
     Ok (cf ++ [line])%list)
  else
    (given <- context_action_given self;
     if given then
       (v_context <- getattr context self;
        line <- str_add "Context: " v_context;
        let cf := (cf ++ [line])%list in
        v_extension <- getattr extension self;
        line <- str_add "Extension: " v_extension;
        let cf := (cf ++ [line])%list in
        v_priority <- getattr priority self;
        line <- str_add "Priority: " v_priority;
        Ok (cf ++ [line])%list)
     else Raise UnknownError).

(** Lines 83 to 105 of [_buildfile]: the optional directives appended to
    the lines [cf] built so far. *)
Definition _buildfile_options (self : CallFile) (cf : list string)
    : outcome (list string) :=
  v_set_var <- getattr set_var self;
  cf <- (if truthy v_set_var then
           (kvs <- items v_set_var;
            append_set_lines cf kvs)
         else Ok cf);
  v_callerid <- getattr callerid self;
  cf <- append_if cf "Callerid" v_callerid;
  v_wait_time <- getattr wait_time self;
  cf <- append_if cf "WaitTime" v_wait_time;
  v_max_retries <- getattr max_retries self;
  cf <- append_if cf "Maxretries" v_max_retries;
  v_retry_time <- getattr retry_time self;
  cf <- append_if cf "RetryTime" v_retry_time;
  v_account <- getattr account self;
  cf <- append_if cf "Account" v_account;
  v_archive <- getattr archive self;
  let cf := if truthy v_archive then (cf ++ ["Archive: yes"])%list else cf in
  Ok cf.

(** The text [_writefile] writes (lines 130 to 132): every line followed
    by a newline. *)
Definition file_text (cf : list string) : string :=
  String.concat "" (map (fun line => line ++ newline) cf).

(** The [dir] that [_writefile] passes to [mkstemp] (lines 125 to 128):
    [self.tmpdir] when it is a non-empty string, the default otherwise. *)
Definition chosen_dir (v_tmpdir : value) : option string :=
  match v_tmpdir with
  | VStr d => if String.eqb d "" then None else Some d
  | _ => None
  end.

(** A line of a given directive. *)
Definition has_key (key line : string) : bool := prefix (key ++ ": ") line.

(** The place of each system call in a run: temporary file, text,
    password entry, ownership, time, time stamp, move. *)
Definition phase (c : syscall) : nat :=
  match c with
  | Mkstemp _ _ => 0
  | WriteFile _ _ => 1
  | Getpwnam _ => 2
  | Chown _ _ _ => 3
  | Mktime _ => 4
  | Utime _ _ _ => 5
  | Move _ _ => 6
  end.

(** The calls are of strictly increasing phase, starting at [lo] or
    later: none is made twice and none out of turn. *)
Fixpoint ascending (lo : nat) (calls : list syscall) : bool :=
  match calls with
  | [] => true
  | c :: rest => Nat.leb lo (phase c) && ascending (S (phase c)) rest
  end.

(** All the calls are of a phase below [hi]. *)
Definition below (hi : nat) (calls : list syscall) : bool :=
  forallb (fun c => Nat.ltb (phase c) hi) calls.

(** Whatever the computation returns or raises, the calls it adds to the
    trace are in order and of a phase from [lo] up to, not including,
    [hi]. *)
Definition emits {A} (lo hi : nat) (m : M A) : Prop :=
  forall tr r tr', m tr = (r, tr') ->
    exists calls, tr' = (tr ++ calls)%list /\
                  ascending lo calls = true /\ below hi calls = true.

Definition is_move (c : syscall) : bool :=
  match c with
  | Move _ _ => true
  | _ => false
  end.

(** A system in which every call up to the time stamp succeeds for the
    run of one file: [mkstemp] creates [fname] in [dir], the user [u] is
    [uid]:[gid], the time [t] is [secs] seconds. *)
Definition all_succeed (os : OS) (dir : option string) (fname text u : string)
    (uid gid : Z) (t : datetime) (secs : Z) : Prop :=
  os_mkstemp os ".call" dir = Some fname /\
  os_write os fname text = true /\
  os_getpwnam os u = Some (uid, gid) /\
  os_chown os fname uid gid = true /\
  os_mktime os t = Some secs /\
  os_utime os fname secs secs = true.

End Parts.

Import Parts.

(* ================================================================== *)
(** * Which exceptions can come out *)

Section Raises.

Variable P : exn -> Prop.

Lemma raises_only_ok {A} (a : A) : raises_only P (Ok a).
Proof. intros e H; discriminate H. Qed.

Lemma raises_only_raise {A} (e : exn) : P e -> raises_only P (@Raise A e).
Proof. intros He e' H; injection H as <-; exact He. Qed.

Lemma raises_only_bind {A B} (m : outcome A) (k : A -> outcome B) :
  raises_only P m -> (forall a, raises_only P (k a)) -> raises_only P (bind m k).
Proof.
  intros Hm Hk e. destruct m as [a | e0]; simpl.
  - apply Hk.
  - intros H. injection H as <-. apply Hm. reflexivity.
Qed.

Lemma raises_only_getattr (field : CallFile -> option value) (self : CallFile) :
  P AttributeError -> raises_only P (getattr field self).
Proof.
  intros HP. unfold getattr. destruct (field self).
  - apply raises_only_ok.
  - apply raises_only_raise, HP.
Qed.

Lemma raises_only_str_add (lit : string) (v : value) :
  P TypeError -> raises_only P (str_add lit v).
Proof.
  intros HP. destruct v; simpl;
    solve [apply raises_only_ok | apply raises_only_raise, HP].
Qed.

Lemma raises_only_add_str (v : value) (s : string) :
  P TypeError -> raises_only P (add_str v s).
Proof.
  intros HP. destruct v; simpl;
    solve [apply raises_only_ok | apply raises_only_raise, HP].
Qed.

Lemma raises_only_format_s (v : value) :
  P ValueError -> raises_only P (format_s v).
Proof.
  intros HP. unfold format_s. destruct (convertible v);
    [apply raises_only_ok | apply raises_only_raise, HP].
Qed.

Lemma raises_only_append_if (cf : list string) (key : string) (v : value) :
  P ValueError -> raises_only P (append_if cf key v).
Proof.
  intros HP. unfold append_if. destruct (truthy v); [ | apply raises_only_ok].
  apply raises_only_bind; [apply raises_only_format_s, HP | ].
  intros text. apply raises_only_ok.
Qed.

Lemma raises_only_append_set_lines (cf : list string) (kvs : list (value * value)) :
  P ValueError -> raises_only P (append_set_lines cf kvs).
Proof.
  intros HP. revert cf. induction kvs as [ | kv rest IH]; intros cf.
  - apply raises_only_ok.
  - cbn [append_set_lines]. apply raises_only_bind; [ | intros line; apply IH].
    unfold format_set_line.
    apply raises_only_bind; [apply raises_only_format_s, HP | intros var].
    apply raises_only_bind; [apply raises_only_format_s, HP | intros val].
    apply raises_only_ok.
Qed.

Lemma raises_only_items (v : value) :
  P AttributeError -> raises_only P (items v).
Proof.
  intros HP. destruct v; simpl;
    solve [apply raises_only_ok | apply raises_only_raise, HP].
Qed.


Lemma raisesM_only_ret {A} (a : A) : raisesM_only P (ret a).
Proof. intros tr e tr' H; discriminate H. Qed.

Lemma raisesM_only_raise {A} (e : exn) : P e -> raisesM_only P (@raise A e).
Proof. intros He tr e' tr' H; injection H as <- _; exact He. Qed.

Lemma raisesM_only_lift {A} (o : outcome A) : raises_only P o -> raisesM_only P (lift o).
Proof. intros Ho tr e tr' H. injection H as H _. apply Ho, H. Qed.

Lemma raisesM_only_perform (c : syscall) : raisesM_only P (perform c).
Proof. intros tr e tr' H; discriminate H. Qed.

Lemma raisesM_only_bind {A B} (m : M A) (k : A -> M B) :
  raisesM_only P m -> (forall a, raisesM_only P (k a)) -> raisesM_only P (bindM m k).
Proof.
  intros Hm Hk tr e tr'. unfold bindM.
  destruct (m tr) as [[a | e0] tr0] eqn:E.
  - apply Hk.
  - intros H; injection H as <- _. apply (Hm _ _ _ E).
Qed.

(** A bare [except] lets nothing of the body through: only what the
    handler raises comes out. *)
Lemma raisesM_only_try {A} (body handler : M A) :
  raisesM_only P handler -> raisesM_only P (try_except body handler).
Proof.
  intros Hh tr e tr'. unfold try_except.
  destruct (body tr) as [[a | e0] tr0].
  - intros H; discriminate H.
  - apply Hh.
Qed.

End Raises.

Ltac raises_step :=
  first
    [ apply raises_only_ok
    | apply raises_only_raise
    | apply raises_only_getattr
    | apply raises_only_str_add
    | apply raises_only_add_str
    | apply raises_only_items
    | apply raises_only_append_if
    | apply raises_only_append_set_lines
    | apply raises_only_bind; [ | intro ]
    | apply raisesM_only_ret
    | apply raisesM_only_raise
    | apply raisesM_only_perform
    | apply raisesM_only_lift
    | apply raisesM_only_try
    | apply raisesM_only_bind; [ | intro ]
    | match goal with
      | |- raises_only _ (if ?b then _ else _) => destruct b
      | |- raisesM_only _ (if ?b then _ else _) => destruct b
      | |- raisesM_only _ (match ?o with Some _ => _ | None => _ end) => destruct o
      end ].

Ltac raises := repeat raises_step; auto.


Lemma buildfile_raises (self : CallFile) :
  raises_only buildfile_exn (_buildfile self).
Proof.
  unfold _buildfile, _buildfile_body, _is_valid, context_action_given, buildfile_exn.
  simpl. raises.
Qed.

(* ================================================================== *)
(** * What a successful [_buildfile] returned *)

Lemma bind_ok {A B} (m : outcome A) (k : A -> outcome B) (b : B) :
  bind m k = Ok b -> exists a, m = Ok a /\ k a = Ok b.
Proof.
  destruct m as [a | e]; simpl; intros H.
  - exists a. split; [reflexivity | exact H].
  - discriminate H.
Qed.

Lemma getattr_ok (field : CallFile -> option value) (self : CallFile) (v : value) :
  getattr field self = Ok v -> field self = Some v.
Proof.
  unfold getattr. destruct (field self); intros H;
    [injection H as <-; reflexivity | discriminate H].
Qed.

Lemma str_add_ok (lit : string) (v : value) (line : string) :
  str_add lit v = Ok line -> exists s, v = VStr s /\ line = lit ++ s.
Proof.
  destruct v; simpl; intros H; try discriminate H.
  injection H as <-. eexists; split; reflexivity.
Qed.

Lemma truthy_str (s : string) : truthy (VStr s) = true -> s <> "".
Proof.
  simpl. intros H ->. discriminate H.
Qed.

Lemma format_s_ok (v : value) (text : string) :
  format_s v = Ok text -> text = str v.
Proof.
  unfold format_s. destruct (convertible v); intros H;
    [injection H as <-; reflexivity | discriminate H].
Qed.

Lemma append_if_directive (cf cf' : list string) (key : string) (v : value) :
  append_if cf key v = Ok cf' -> cf' = (cf ++ directive key v)%list.
Proof.
  unfold append_if, directive. destruct (truthy v); intros H.
  - apply bind_ok in H. destruct H as (text & E & H).
    apply format_s_ok in E. subst text. injection H as <-. reflexivity.
  - injection H as <-. symmetry; apply app_nil_r.
Qed.

Lemma append_if_convertible (cf : list string) (key : string) (v : value) :
  convertible v = true ->
  append_if cf key v = Ok (cf ++ directive key v)%list.
Proof.
  intros C. unfold append_if, directive, format_s. rewrite C.
  destruct (truthy v); [reflexivity | rewrite app_nil_r; reflexivity].
Qed.

Lemma append_set_lines_ok (kvs : list (value * value)) (cf cf' : list string) :
  append_set_lines cf kvs = Ok cf' -> cf' = (cf ++ map set_line kvs)%list.
Proof.
  revert cf. induction kvs as [ | kv rest IH]; intros cf H.
  - injection H as <-. symmetry; apply app_nil_r.
  - cbn [append_set_lines] in H. apply bind_ok in H. destruct H as (line & E & H).
    unfold format_set_line in E.
    apply bind_ok in E. destruct E as (var & Ev & E). apply format_s_ok in Ev.
    apply bind_ok in E. destruct E as (val & Ew & E). apply format_s_ok in Ew.
    injection E as <-. subst var val.
    rewrite (IH _ H), <- app_assoc. reflexivity.
Qed.

Lemma append_set_lines_convertible (kvs : list (value * value)) (cf : list string) :
  convertible (VDict kvs) = true ->
  append_set_lines cf kvs = Ok (cf ++ map set_line kvs)%list.
Proof.
  revert cf. induction kvs as [ | kv rest IH]; intros cf C.
  - rewrite app_nil_r. reflexivity.
  - cbn [convertible forallb] in C.
    apply andb_true_iff in C. destruct C as [Ckv C].
    apply andb_true_iff in Ckv. destruct Ckv as [Ck Cv].
    cbn [append_set_lines]. unfold format_set_line, format_s. rewrite Ck, Cv.
    cbn [bind]. rewrite (IH _ C), <- app_assoc. reflexivity.
Qed.

Lemma set_directives_false (v : value) :
  truthy v = false -> set_directives v = [].
Proof.
  destruct v as [ | | | | [ | kv kvs] | ]; simpl; intros H;
    solve [reflexivity | discriminate H].
Qed.

Tactic Notation "bind_inv" hyp(H) "as" ident(a) ident(E) :=
  apply bind_ok in H; destruct H as (a & E & H).

Tactic Notation "attr_inv" hyp(H) "as" ident(a) ident(E) :=
  bind_inv H as a E; apply getattr_ok in E.

Tactic Notation "line_inv" hyp(H) "as" ident(s) :=
  let l := fresh "line" in
  let E := fresh "E" in
  bind_inv H as l E; apply str_add_ok in E; destruct E as (s & -> & ->).

(** Lines 71 to 81 on their own. *)
Lemma context_action_given_true (self : CallFile) :
  context_action_given self = Ok true ->
  exists x e p, context self = Some x /\ extension self = Some e /\
                priority self = Some p /\
                truthy x = true /\ truthy e = true /\ truthy p = true.
Proof.
  unfold context_action_given. intros H.
  attr_inv H as x Ex. destruct (truthy x) eqn:Tx; [ | discriminate H].
  attr_inv H as e Ee. destruct (truthy e) eqn:Te; [ | discriminate H].
  attr_inv H as p Ep. injection H as Tp.
  exists x, e, p. repeat split; assumption.
Qed.

Lemma buildfile_structure (self : CallFile) (cf : list string) :
  _buildfile self = Ok cf ->
  exists head sv cid wt mr rt acc ar,
    (application_head self head \/ context_head self head) /\
    set_var self = Some sv /\ callerid self = Some cid /\
    wait_time self = Some wt /\ max_retries self = Some mr /\
    retry_time self = Some rt /\ account self = Some acc /\
    archive self = Some ar /\
    (truthy sv = true -> exists kvs, sv = VDict kvs) /\
    cf = (head ++ option_lines sv cid wt mr rt acc ar)%list.
Proof.
  unfold _buildfile, _is_valid. simpl. unfold _buildfile_body. intros H.
  attr_inv H as ch Ech. line_inv H as c.
  attr_inv H as a Ea.
  bind_inv H as head Ehead.
  assert (Hhead : application_head self head \/ context_head self head).
  { destruct (truthy a) eqn:Ta.
    - left. line_inv Ehead as n. attr_inv Ehead as dv Ed.
      line_inv Ehead as d. injection Ehead as <-.
      exists c, n, d. repeat split; try assumption.
      apply truthy_str, Ta.
    - right. bind_inv Ehead as given Eg. destruct given; [ | discriminate Ehead].
      apply context_action_given_true in Eg.
      destruct Eg as (x & e & p & Hx & He & Hp & Tx & Te & Tp).
      attr_inv Ehead as x' Ex. line_inv Ehead as xs.
      attr_inv Ehead as e' Ee. line_inv Ehead as es.
      attr_inv Ehead as p' Ep. line_inv Ehead as ps.
      injection Ehead as <-.
      rewrite Ex in Hx; injection Hx as <-.
      rewrite Ee in He; injection He as <-.
      rewrite Ep in Hp; injection Hp as <-.
      exists c, a, xs, es, ps.
      repeat split; try assumption; apply truthy_str; assumption. }
  clear Ehead.
  attr_inv H as sv Esv.
  bind_inv H as cf1 Ecf1.
  attr_inv H as cid Ecid. bind_inv H as cf2 Ecf2. apply append_if_directive in Ecf2.
  attr_inv H as wt Ewt. bind_inv H as cf3 Ecf3. apply append_if_directive in Ecf3.
  attr_inv H as mr Emr. bind_inv H as cf4 Ecf4. apply append_if_directive in Ecf4.
  attr_inv H as rt Ert. bind_inv H as cf5 Ecf5. apply append_if_directive in Ecf5.
  attr_inv H as acc Eacc. bind_inv H as cf6 Ecf6. apply append_if_directive in Ecf6.
  attr_inv H as ar Ear.
  injection H as <-. subst cf6 cf5 cf4 cf3 cf2.
  exists head, sv, cid, wt, mr, rt, acc, ar.
  repeat (split; [assumption | ]).
  assert (Hsv : (truthy sv = true -> exists kvs, sv = VDict kvs) /\
                cf1 = (head ++ set_directives sv)%list).
  { destruct (truthy sv) eqn:Ts.
    - bind_inv Ecf1 as kvs Ekvs. apply append_set_lines_ok in Ecf1. subst cf1.
      destruct sv; simpl in Ekvs; try discriminate Ekvs.
      injection Ekvs as <-. split; [eexists; reflexivity | reflexivity].
    - injection Ecf1 as <-. split; [intros D; discriminate D | ].
      rewrite (set_directives_false sv Ts). symmetry; apply app_nil_r. }
  destruct Hsv as [Hd ->]. split; [exact Hd | ].
  unfold option_lines, archive_directive.
  destruct (truthy ar); simpl;
    rewrite <- ?app_assoc; simpl; rewrite ?app_nil_r; reflexivity.
Qed.

(** With an application action the head is the application head, and no
    line of the output is a line of the context action. *)
Lemma option_lines_not_context (sv cid wt mr rt acc ar : value) :
  forallb (fun line => negb (is_context_line line))
          (option_lines sv cid wt mr rt acc ar) = true.
Proof.
  unfold option_lines, directive, archive_directive.
  rewrite !forallb_app. repeat (apply andb_true_intro; split).
  - unfold set_directives. destruct sv as [ | | | | kvs | ]; try reflexivity.
    induction kvs as [ | kv kvs IH]; [reflexivity | simpl; exact IH].
  - destruct (truthy cid); reflexivity.
  - destruct (truthy wt); reflexivity.
  - destruct (truthy mr); reflexivity.
  - destruct (truthy rt); reflexivity.
  - destruct (truthy acc); reflexivity.
  - destruct (truthy ar); reflexivity.
Qed.

Lemma buildfile_application_layout (self : CallFile) (cf : list string) (a : value) :
  application self = Some a -> truthy a = true ->
  _buildfile self = Ok cf ->
  exists c n d rest,
    channel self = Some (VStr c) /\ a = VStr n /\ data self = Some (VStr d) /\
    cf = ("Channel: " ++ c) :: ("Application: " ++ n) :: ("Data: " ++ d) :: rest /\
    forallb (fun line => negb (is_context_line line)) cf = true.
Proof.
  intros Ha Ta H.
  destruct (buildfile_structure self cf H)
    as (head & sv & cid & wt & mr & rt & acc & ar & Hhead & _ & _ & _ & _ & _ & _ & _ & _ & ->).
  destruct Hhead as [(c & n & d & Hc & Hn & _ & Hd & ->) | (c & a' & x & e & p & _ & Ha' & Tf & _)].
  - rewrite Ha in Hn; injection Hn as ->.
    exists c, n, d, (option_lines sv cid wt mr rt acc ar).
    repeat split; try assumption.
    simpl. apply option_lines_not_context.
  - rewrite Ha in Ha'; injection Ha' as <-. rewrite Ta in Tf. discriminate Tf.
Qed.

(** The converse: when the attributes are there and are strings, the lines
    come out. *)
Lemma buildfile_application_renders (self : CallFile)
    (c n d : string) (sv cid wt mr rt acc ar : value) :
  channel self = Some (VStr c) -> application self = Some (VStr n) -> n <> "" ->
  data self = Some (VStr d) ->
  set_var self = Some sv -> (truthy sv = true -> exists kvs, sv = VDict kvs) ->
  callerid self = Some cid -> wait_time self = Some wt ->
  max_retries self = Some mr -> retry_time self = Some rt ->
  account self = Some acc -> archive self = Some ar ->
  convertible sv = true -> convertible cid = true -> convertible wt = true ->
  convertible mr = true -> convertible rt = true -> convertible acc = true ->
  _buildfile self =
    Ok (("Channel: " ++ c) :: ("Application: " ++ n) :: ("Data: " ++ d)
        :: option_lines sv cid wt mr rt acc ar).
Proof.
  intros Hc Hn Nn Hd Hsv Dsv Hcid Hwt Hmr Hrt Hacc Har Csv Ccid Cwt Cmr Crt Cacc.
  unfold _buildfile, _is_valid. simpl. unfold _buildfile_body, getattr.
  rewrite Hc, Hn, Hd, Hsv, Hcid, Hwt, Hmr, Hrt, Hacc, Har.
  cbn -[append_if append_set_lines].
  destruct (String.eqb n "") eqn:En; [apply String.eqb_eq in En; contradiction | ].
  cbn -[append_if append_set_lines].
  destruct (truthy sv) eqn:Ts.
  - destruct (Dsv eq_refl) as (kvs & ->). cbn -[append_if append_set_lines].
    rewrite (append_set_lines_convertible kvs _ Csv). cbn [bind].
    rewrite (append_if_convertible _ _ _ Ccid). cbn [bind].
    rewrite (append_if_convertible _ _ _ Cwt). cbn [bind].
    rewrite (append_if_convertible _ _ _ Cmr). cbn [bind].
    rewrite (append_if_convertible _ _ _ Crt). cbn [bind].
    rewrite (append_if_convertible _ _ _ Cacc). cbn [bind].
    unfold option_lines, archive_directive, set_directives.
    destruct (truthy ar); rewrite <- ?app_assoc; rewrite ?app_nil_r; reflexivity.
  - cbn -[append_if append_set_lines].
    rewrite (append_if_convertible _ _ _ Ccid). cbn [bind].
    rewrite (append_if_convertible _ _ _ Cwt). cbn [bind].
    rewrite (append_if_convertible _ _ _ Cmr). cbn [bind].
    rewrite (append_if_convertible _ _ _ Crt). cbn [bind].
    rewrite (append_if_convertible _ _ _ Cacc). cbn [bind].
    unfold option_lines, archive_directive.
    rewrite (set_directives_false sv Ts).
    destruct (truthy ar); rewrite <- ?app_assoc; rewrite ?app_nil_r; reflexivity.
Qed.

(** An instance as [__init__] leaves it has no [channel] attribute. *)
Lemma init_sets_no_channel (G0 : namespace)
    (c a sv ar u td fn sd : value) (self : CallFile) :
  __init__ G0 c a sv ar u td fn sd = Ok self -> channel self = None.
Proof.
  unfold __init__. intros H. bind_inv H as spool E.
  injection H as <-. reflexivity.
Qed.

Lemma buildfile_without_channel (self : CallFile) :
  channel self = None -> _buildfile self = Raise AttributeError.
Proof.
  intros H. unfold _buildfile, _is_valid. simpl.
  unfold _buildfile_body, getattr. rewrite H. reflexivity.
Qed.

(** Neither action given: line 81. *)
Lemma buildfile_no_action (self : CallFile) (c : string) (a x : value) :
  channel self = Some (VStr c) ->
  application self = Some a -> truthy a = false ->
  context self = Some x -> truthy x = false ->
  _buildfile self = Raise UnknownError.
Proof.
  intros Hc Ha Ta Hx Tx. unfold _buildfile, _is_valid. simpl.
  unfold _buildfile_body, context_action_given, getattr.
  rewrite Hc, Ha. simpl. rewrite Ta, Hx. simpl. rewrite Tx. reflexivity.
Qed.

Lemma buildfile_never_raises (self : CallFile) (e : exn) :
  _buildfile self = Raise e ->
  e <> NoChannelDefinedError /\ e <> NoActionDefinedError.
Proof.
  intros H. destruct (buildfile_raises self e H) as [-> | [-> | [-> | ->]]];
    split; discriminate.
Qed.

(* ================================================================== *)
(** * Names *)

Lemma lookup_app (name : string) (ns1 ns2 : namespace) :
  lookup name (ns1 ++ ns2)%list =
  match lookup name ns1 with
  | Some v => Some v
  | None => lookup name ns2
  end.
Proof.
  induction ns1 as [ | [n v] rest IH]; simpl; [reflexivity | ].
  destruct (String.eqb n name); [reflexivity | exact IH].
Qed.

Lemma default_spool_dir_not_global (errors_exports : namespace) :
  lookup "DEFAULT_SPOOL_DIR" errors_exports = None ->
  lookup "DEFAULT_SPOOL_DIR" (module_globals errors_exports) = None.
Proof.
  intros H. unfold module_globals. rewrite !lookup_app, H. reflexivity.
Qed.

(** An explicit, non-empty spool directory is kept as given. *)
Lemma init_explicit_spool_dir (G0 : namespace) (c a sv ar u td fn sd : value) :
  truthy sd = true ->
  exists self, __init__ G0 c a sv ar u td fn sd = Ok self /\
               spool_dir self = Some sd.
Proof.
  intros H. unfold __init__. rewrite H. simpl.
  eexists; split; reflexivity.
Qed.

(* ================================================================== *)
(** * The steps of [run] *)

Section SysRaises.

Variable P : exn -> Prop.
Hypothesis P_type : P TypeError.
Hypothesis P_value : P ValueError.
Hypothesis P_os : P OSError.

Lemma raisesM_only_make_temp (os : OS) (suffix : string) (dir : option string) :
  raisesM_only P (make_temp os suffix dir).
Proof.
  unfold make_temp. destruct (os_mkstemp os suffix dir); [raises | ].
  destruct (match dir with Some d => has_nul d | None => false end); raises.
Qed.

Lemma raisesM_only_mkstemp (os : OS) (suffix : string) (dir : option value) :
  raisesM_only P (mkstemp os suffix dir).
Proof.
  unfold mkstemp.
  destruct dir as [[ | | | | | ] | ];
    solve [apply raisesM_only_make_temp | raises].
Qed.

Lemma raisesM_only_write (os : OS) (fname content : string) :
  raisesM_only P (write os fname content).
Proof. unfold write. raises. Qed.

End SysRaises.


Lemma run_raises (os : OS) (self : CallFile) (time : option datetime) :
  raisesM_only run_exn (run os self time).
Proof.
  unfold run, _writefile, run_ownership, run_timestamp, run_move.
  apply raisesM_only_bind.
  { apply raisesM_only_lift. intros e H. left. apply (buildfile_raises self e H). }
  intros cf. apply raisesM_only_bind.
  { apply raisesM_only_bind; [ | intros v_tmpdir; apply raisesM_only_bind ].
    - apply raisesM_only_lift, raises_only_getattr. left; left; reflexivity.
    - destruct (truthy v_tmpdir); apply raisesM_only_mkstemp;
        unfold run_exn, buildfile_exn; auto.
    - intros fname. apply raisesM_only_bind; [ | intros _; apply raisesM_only_ret ].
      apply raisesM_only_write. unfold run_exn; auto. }
  intros fname. unfold run_exn, buildfile_exn. raises.
Qed.

Lemma run_never_raises (os : OS) (self : CallFile) (time : option datetime)
    (tr tr' : trace) (e : exn) :
  run os self time tr = (Raise e, tr') ->
  e <> NoUserPermissionError /\ e <> NoChannelDefinedError /\
  e <> NoActionDefinedError.
Proof.
  intros H. pose proof (run_raises os self time tr e tr' H) as He.
  unfold run_exn, buildfile_exn in He.
  repeat split; intros ->; intuition discriminate.
Qed.

(** Ownership, case by case. *)
Lemma run_ownership_no_user (os : OS) (self : CallFile) (fname : string)
    (u : value) (tr : trace) :
  user self = Some u -> truthy u = false ->
  run_ownership os self fname tr = (Ok tt, tr).
Proof.
  intros Hu Tu. unfold run_ownership, bindM, lift, getattr.
  rewrite Hu, Tu. reflexivity.
Qed.

Lemma run_ownership_unknown_user (os : OS) (self : CallFile) (fname u : string)
    (tr : trace) :
  user self = Some (VStr u) -> u <> "" -> os_getpwnam os u = None ->
  has_nul u = false ->
  run_ownership os self fname tr = (Raise NoUserError, (tr ++ [Getpwnam u])%list).
Proof.
  intros Hu Nu Hpw Hn. unfold run_ownership, bindM, lift, getattr. rewrite Hu.
  simpl. destruct (String.eqb u "") eqn:E; [apply String.eqb_eq in E; contradiction | ].
  simpl. unfold try_except, bindM, perform. simpl. rewrite Hpw, Hn. reflexivity.
Qed.

Lemma run_ownership_chown_rejected (os : OS) (self : CallFile) (fname u : string)
    (uid gid : Z) (tr : trace) :
  user self = Some (VStr u) -> u <> "" -> os_getpwnam os u = Some (uid, gid) ->
  os_chown os fname uid gid = false ->
  run_ownership os self fname tr =
    (Raise NoUserError, (tr ++ [Getpwnam u; Chown fname uid gid])%list).
Proof.
  intros Hu Nu Hpw Hch. unfold run_ownership, bindM, lift, getattr. rewrite Hu.
  simpl. destruct (String.eqb u "") eqn:E; [apply String.eqb_eq in E; contradiction | ].
  simpl. unfold try_except, bindM, perform, chown, bindM, perform. simpl.
  rewrite Hpw. simpl. rewrite Hch. simpl. rewrite <- app_assoc. reflexivity.
Qed.

Lemma run_ownership_applied (os : OS) (self : CallFile) (fname u : string)
    (uid gid : Z) (tr : trace) :
  user self = Some (VStr u) -> u <> "" -> os_getpwnam os u = Some (uid, gid) ->
  os_chown os fname uid gid = true ->
  run_ownership os self fname tr =
    (Ok tt, (tr ++ [Getpwnam u; Chown fname uid gid])%list).
Proof.
  intros Hu Nu Hpw Hch. unfold run_ownership, bindM, lift, getattr. rewrite Hu.
  simpl. destruct (String.eqb u "") eqn:E; [apply String.eqb_eq in E; contradiction | ].
  simpl. unfold try_except, bindM, perform, chown, bindM, perform. simpl.
  rewrite Hpw. simpl. rewrite Hch. simpl. rewrite <- app_assoc. reflexivity.
Qed.

(** The time stamp never raises, and does nothing without a time. *)
Lemma run_timestamp_returns (os : OS) (fname : string) (time : option datetime)
    (tr : trace) :
  exists tr', run_timestamp os fname time tr = (Ok tt, tr').
Proof.
  unfold run_timestamp, try_except, bindM, mktime_timetuple, utime, bindM, perform, ret, raise.
  destruct time as [t | ]; simpl.
  - destruct (os_mktime os t) as [secs | ]; simpl.
    + destruct (os_utime os fname secs secs); simpl; eexists; reflexivity.
    + eexists; reflexivity.
  - eexists; reflexivity.
Qed.

Lemma run_timestamp_skipped (os : OS) (fname : string) (tr : trace) :
  run_timestamp os fname None tr = (Ok tt, tr).
Proof. reflexivity. Qed.

(** The move is never made: [path.basename] raises inside the [try] of
    lines 174 to 177, whatever the spool directory and the system are. *)
Lemma run_move_spec (os : OS) (self : CallFile) (fname : string) (tr : trace) :
  run_move os self fname tr = (Raise NoSpoolPermissionError, tr).
Proof.
  unfold run_move, try_except, bindM, lift, getattr, path_basename, raise.
  destruct (spool_dir self); reflexivity.
Qed.

Lemma run_move_result_any_trace (os : OS) (self : CallFile) (fname : string)
    (tr1 tr2 : trace) :
  fst (run_move os self fname tr1) = fst (run_move os self fname tr2).
Proof. rewrite !run_move_spec. reflexivity. Qed.

(** The [+] of line 175, were it reached, puts nothing between the spool
    directory and the name. *)
Lemma add_str_puts_no_separator (d base : string) :
  add_str (VStr d) base = Ok (d ++ base).
Proof. reflexivity. Qed.

(* ================================================================== *)
(** * The claims *)

(** C1.  The two causes of an ownership failure do not surface as two
    error types.  With user [asterisk] known to the system and [chown]
    rejected, [run] raises [NoUserError]: the [NoUserPermissionError] raised
    at line 161 is inside the outer [try] and its bare [except] at line 162
    replaces it.  An unknown user gives the same [NoUserError]. *)
Theorem ownership_failures_raise_the_same_error :
  run (system false true true true)
      (playback_request (VStr "asterisk") (VStr spool_path)) None [] =
    (Raise NoUserError,
     [Mkstemp ".call" None; WriteFile "/tmp/tmpk3x9.call" playback_text;
      Getpwnam "asterisk"; Chown "/tmp/tmpk3x9.call" 101 102])
  /\
  run (system false true true true)
      (playback_request (VStr "nobody") (VStr spool_path)) None [] =
    (Raise NoUserError,
     [Mkstemp ".call" None; WriteFile "/tmp/tmpk3x9.call" playback_text;
      Getpwnam "nobody"]).
Proof. repeat split. Qed.

(** C2.  An empty or absent channel does not raise the missing-channel
    error.  With [channel] the empty string and an application action,
    [_buildfile] returns lines starting with [Channel: ] and nothing after
    the colon; with [channel] empty and no action it raises [UnknownError]
    from line 81; with no [channel] attribute, as [__init__] leaves the
    instance, or with [channel] [None], it raises [AttributeError] or
    [TypeError] at line 71. *)
Theorem empty_channel_is_not_rejected :
  _buildfile (assign (playback_request VNone (VStr spool_path))
                     [("channel", VStr "")]) =
    Ok ["Channel: "; "Application: Playback"; "Data: hello-world"]
  /\
  _buildfile (assign (blank VNone (VStr spool_path)) [("channel", VStr "")]) =
    Raise UnknownError
  /\
  _buildfile (constructed VNone (VStr spool_path)) = Raise AttributeError
  /\
  _buildfile (blank VNone (VStr spool_path)) = Raise TypeError.
Proof. repeat split; reflexivity. Qed.

(** C3.  A request with a channel and neither action completed does not
    raise [NoActionDefinedError]: line 81 raises [UnknownError]. *)
Theorem no_action_raises_UnknownError :
  _buildfile (assign (blank VNone (VStr spool_path))
                     [("channel", VStr "SIP/1234")]) = Raise UnknownError
  /\
  _buildfile (assign (blank VNone (VStr spool_path))
                     [("channel", VStr "SIP/1234"); ("context", VStr "default");
                      ("extension", VStr "s")]) = Raise UnknownError.
Proof. split; reflexivity. Qed.

(** C4.  Constructing a [CallFile] without [spool_dir] raises [NameError]:
    line 45 names [DEFAULT_SPOOL_DIR] as a global, and nothing binds that
    name at module level unless the errors module exports it. *)
Theorem init_without_spool_dir_raises_NameError
    (errors_exports : namespace) (c a sv ar u td fn : value) :
  lookup "DEFAULT_SPOOL_DIR" errors_exports = None ->
  __init__ (module_globals errors_exports) c a sv ar u td fn VNone =
    Raise NameError.
Proof.
  intros H. unfold __init__, load_global. simpl truthy. cbv iota.
  rewrite (default_spool_dir_not_global errors_exports H). reflexivity.
Qed.

(** C4 at the sample errors module, which exports the six exception
    classes and nothing else. *)
Lemma init_without_spool_dir_raises_NameError_witness :
  lookup "DEFAULT_SPOOL_DIR" errors_module = None /\
  __init__ G sip_call playback VNone VNone VNone VNone VNone VNone =
    Raise NameError.
Proof.
  split.
  - reflexivity.
  - apply (init_without_spool_dir_raises_NameError errors_module). reflexivity.
Defined.

(** C5.  No run gets as far as the move, so none is successful.  With
    every system call accepted, the run for the spool directory
    [/var/spool/asterisk/outgoing] writes [/tmp/tmpk3x9.call] and then
    raises [NoSpoolPermissionError] without calling [move]; so does the run
    for the same directory written with its final slash: at line 175
    [path.basename(fname)] raises, [path] being the class that line 10
    imports, and the bare [except] of line 176 turns that into
    [NoSpoolPermissionError].  For every system, instance and time [run]
    ends with an exception. *)
Theorem run_never_delivers :
  run (system true true true true)
      (playback_request VNone (VStr spool_path)) None [] =
    (Raise NoSpoolPermissionError,
     [Mkstemp ".call" None; WriteFile "/tmp/tmpk3x9.call" playback_text])
  /\
  run (system true true true true)
      (playback_request VNone (VStr "/var/spool/asterisk/outgoing/")) None [] =
    (Raise NoSpoolPermissionError,
     [Mkstemp ".call" None; WriteFile "/tmp/tmpk3x9.call" playback_text])
  /\
  (forall (os : OS) (self : CallFile) (time : option datetime) (tr : trace),
      exists e tr', run os self time tr = (Raise e, tr')).
Proof.
  split; [reflexivity | ]. split; [reflexivity | ].
  intros os self time tr. unfold run, bindM, lift.
  destruct (_buildfile self) as [cf | e]; [ | eexists; eexists; reflexivity].
  destruct (_writefile os self cf tr) as [[fname | e] tr1];
    [ | eexists; eexists; reflexivity].
  destruct (run_ownership os self fname tr1) as [[[] | e] tr2];
    [ | eexists; eexists; reflexivity].
  destruct (run_timestamp os fname time tr2) as [[[] | e] tr3];
    [ | eexists; eexists; reflexivity].
  rewrite run_move_spec. eexists; eexists; reflexivity.
Qed.

(** C6.  The request made of [Call('SIP/1234')] and
    [Application('Playback', 'hello-world')] does not render: [__init__]
    keeps the two objects under [call] and [action], and [_buildfile] reads
    [self.channel] at line 71, an attribute the instance does not have. *)
Theorem constructed_request_does_not_render :
  __init__ G sip_call playback VNone VNone VNone VNone VNone
           (VStr "/var/spool/asterisk/outgoing/") =
    Ok (constructed VNone (VStr "/var/spool/asterisk/outgoing/"))
  /\
  _buildfile (constructed VNone (VStr "/var/spool/asterisk/outgoing/")) =
    Raise AttributeError.
Proof. split; reflexivity. Qed.

(** C7, as stated, fails: with [max_retries] 0 (and every other field as
    in the playback request) the output has no [Maxretries] line. *)
Lemma max_retries_zero_yields_no_line :
  let self := assign (playback_request VNone (VStr spool_path))
                     [("max_retries", VInt 0)] in
  max_retries self = Some (VInt 0) /\
  _buildfile self =
    Ok ["Channel: SIP/1234"; "Application: Playback"; "Data: hello-world"] /\
  ~ In "Maxretries: 0"
       ["Channel: SIP/1234"; "Application: Playback"; "Data: hello-world"].
Proof.
  repeat split. simpl. intros [H | [H | [H | []]]]; discriminate H.
Qed.

(** C7, amended.  Whenever [_buildfile] returns its lines, they are the
    channel and action lines followed by the optional directives in the
    order Set (one per entry of the mapping), Callerid, WaitTime,
    Maxretries, RetryTime, Account, Archive, where a field yields its one
    line exactly when its value is true: a [max_retries] of 0 yields none,
    any other integer [n] yields [Maxretries: n]. *)
Theorem optional_directives_follow_truth_value (self : CallFile) (cf : list string) :
  _buildfile self = Ok cf ->
  exists head sv cid wt mr rt acc ar,
    (application_head self head \/ context_head self head) /\
    set_var self = Some sv /\ callerid self = Some cid /\
    wait_time self = Some wt /\ max_retries self = Some mr /\
    retry_time self = Some rt /\ account self = Some acc /\
    archive self = Some ar /\
    cf = (head ++ set_directives sv ++ directive "Callerid" cid
          ++ directive "WaitTime" wt ++ directive "Maxretries" mr
          ++ directive "RetryTime" rt ++ directive "Account" acc
          ++ archive_directive ar)%list /\
    directive "Maxretries" (VInt 0) = [] /\
    (forall n : Z, n <> 0%Z ->
       directive "Maxretries" (VInt n) = ["Maxretries: " ++ str_of_int n]).
Proof.
  intros H.
  destruct (buildfile_structure self cf H)
    as (head & sv & cid & wt & mr & rt & acc & ar & Hh & Hsv & Hcid & Hwt
        & Hmr & Hrt & Hacc & Har & _ & Hcf).
  exists head, sv, cid, wt, mr, rt, acc, ar.
  repeat (split; [assumption | ]).
  split; [reflexivity | ].
  intros n Hn. unfold directive. simpl.
  destruct (Z.eqb_spec n 0); [contradiction | reflexivity].
Qed.

(** C7, amended, at a request with every optional field set. *)
Lemma optional_directives_follow_truth_value_witness :
  _buildfile full_request = Ok full_lines /\
  exists head sv cid wt mr rt acc ar,
    (application_head full_request head \/ context_head full_request head) /\
    set_var full_request = Some sv /\ callerid full_request = Some cid /\
    wait_time full_request = Some wt /\ max_retries full_request = Some mr /\
    retry_time full_request = Some rt /\ account full_request = Some acc /\
    archive full_request = Some ar /\
    full_lines = (head ++ set_directives sv ++ directive "Callerid" cid
          ++ directive "WaitTime" wt ++ directive "Maxretries" mr
          ++ directive "RetryTime" rt ++ directive "Account" acc
          ++ archive_directive ar)%list /\
    directive "Maxretries" (VInt 0) = [] /\
    (forall n : Z, n <> 0%Z ->
       directive "Maxretries" (VInt n) = ["Maxretries: " ++ str_of_int n]).
Proof.
  split.
  - reflexivity.
  - apply (optional_directives_follow_truth_value full_request full_lines).
    reflexivity.
Defined.

(** C8.  Failures of the time stamp are absorbed.  The time-stamp step
    always returns normally, whatever [mktime] and [utime] do; without a
    time it makes no call at all; the value or error [run] ends with is
    the one it ends with when no time is given; and without a time [run]
    is: build, write, ownership, then the move. *)
Theorem timestamp_failures_are_absorbed :
  (forall (os : OS) (fname : string) (time : option datetime) (tr : trace),
      exists tr', run_timestamp os fname time tr = (Ok tt, tr'))
  /\
  (forall (os : OS) (fname : string) (tr : trace),
      run_timestamp os fname None tr = (Ok tt, tr))
  /\
  (forall (os : OS) (self : CallFile) (time : option datetime) (tr : trace),
      fst (run os self time tr) = fst (run os self None tr))
  /\
  (forall (os : OS) (self : CallFile) (tr : trace),
      run os self None tr =
      (cf <- lift (_buildfile self);
       fname <- _writefile os self cf;
       run_ownership os self fname;;
       run_move os self fname;;
       ret (VBool true))%sys tr).
Proof.
  split; [exact run_timestamp_returns | ].
  split; [exact run_timestamp_skipped | ].
  split.
  - intros os self time tr. unfold run, bindM, lift.
    destruct (_buildfile self) as [cf | e]; [ | reflexivity].
    destruct (_writefile os self cf tr) as [[fname | e] tr1]; [ | reflexivity].
    destruct (run_ownership os self fname tr1) as [[[] | e] tr2]; [ | reflexivity].
    destruct (run_timestamp_returns os fname time tr2) as [tr3 ->].
    rewrite run_timestamp_skipped.
    pose proof (run_move_result_any_trace os self fname tr3 tr2) as Hm.
    destruct (run_move os self fname tr3) as [[[] | e1] t1];
      destruct (run_move os self fname tr2) as [[[] | e2] t2];
      simpl in *; congruence.
  - intros os self tr. unfold run, bindM, lift.
    destruct (_buildfile self) as [cf | e]; [ | reflexivity].
    destruct (_writefile os self cf tr) as [[fname | e] tr1]; [ | reflexivity].
    destruct (run_ownership os self fname tr1) as [[[] | e] tr2]; [ | reflexivity].
    rewrite run_timestamp_skipped. reflexivity.
Qed.

(** A run whose [mktime] or [utime] fails goes on to the move step all
    the same: the error it ends with is that of lines 174 to 177, not one of
    the time stamp. *)
Example run_goes_on_although_utime_fails :
  run (system true true false true)
      (playback_request VNone (VStr "/var/spool/asterisk/outgoing/"))
      (Some (mk_datetime 2011 3 13 7 6 40)) [] =
    (Raise NoSpoolPermissionError,
     [Mkstemp ".call" None; WriteFile "/tmp/tmpk3x9.call" playback_text;
      Mktime (mk_datetime 2011 3 13 7 6 40);
      Utime "/tmp/tmpk3x9.call" 1300000000 1300000000]).
Proof. reflexivity. Qed.

Example run_goes_on_although_mktime_fails :
  run (system true false true true)
      (playback_request VNone (VStr "/var/spool/asterisk/outgoing/"))
      (Some (mk_datetime 2011 3 13 7 6 40)) [] =
    (Raise NoSpoolPermissionError,
     [Mkstemp ".call" None; WriteFile "/tmp/tmpk3x9.call" playback_text;
      Mktime (mk_datetime 2011 3 13 7 6 40)]).
Proof. reflexivity. Qed.

(** C9.  [spool] raises [NoActionDefinedError] for every instance and every
    system, and makes no call into the system: the trace is unchanged.  This
    includes an instance that [_buildfile] renders. *)
Theorem spool_always_raises_NoActionDefinedError :
  (forall (os : OS) (self : CallFile) (tr : trace),
      spool os self tr = (Raise NoActionDefinedError, tr))
  /\
  _buildfile (playback_request VNone (VStr spool_path)) =
    Ok ["Channel: SIP/1234"; "Application: Playback"; "Data: hello-world"]
  /\
  spool (system true true true true)
        (playback_request VNone (VStr spool_path)) [] =
    (Raise NoActionDefinedError, []).
Proof. repeat split. Qed.

(** C10.  [_is_valid] returns [True] for every instance, so the guard of
    line 67 never fires: [_buildfile] is its lines 70 to 105. *)
Theorem is_valid_always_true :
  forall self : CallFile,
    _is_valid self = Ok (VBool true) /\
    _buildfile self = _buildfile_body self.
Proof. intros self. split; reflexivity. Qed.

(* ================================================================== *)
(** * Further properties of [_buildfile] *)

Lemma buildfile_split (self : CallFile) :
  _buildfile self =
  (head <- _buildfile_action self; _buildfile_options self head).
Proof.
  unfold _buildfile, _is_valid. simpl.
  unfold _buildfile_body, _buildfile_action, _buildfile_options, getattr.
  destruct (channel self) as [[ | | | c | | ] | ]; try reflexivity.
  destruct (application self) as [a | ]; reflexivity.
Qed.


Lemma truthy_nonempty (s : string) : s <> "" -> truthy (VStr s) = true.
Proof.
  intros H. simpl. destruct (String.eqb s "") eqn:E; [ | reflexivity].
  apply String.eqb_eq in E. contradiction.
Qed.

Lemma context_given (self : CallFile) (x e : string) (p : value) :
  context self = Some (VStr x) -> extension self = Some (VStr e) ->
  priority self = Some p -> x <> "" -> e <> "" ->
  context_action_given self = Ok (truthy p).
Proof.
  intros Hx He Hp Nx Ne. unfold context_action_given, getattr.
  rewrite Hx. cbn [bind]. rewrite (truthy_nonempty x Nx).
  rewrite He. cbn [bind]. rewrite (truthy_nonempty e Ne).
  rewrite Hp. reflexivity.
Qed.







(** X3.  The application is tested first: whenever [_buildfile] returns
    lines for an instance whose [application] attribute is true, the
    channel, the application and the data were strings, they make the first
    three lines, and no line starts with [Context:], [Extension:] or
    [Priority:], also when the context attributes are set as well. *)
Theorem application_wins_over_context (self : CallFile) (cf : list string)
    (a : value) :
  application self = Some a -> truthy a = true ->
  _buildfile self = Ok cf ->
  exists c n d rest,
    channel self = Some (VStr c) /\ a = VStr n /\ data self = Some (VStr d) /\
    cf = ("Channel: " ++ c) :: ("Application: " ++ n) :: ("Data: " ++ d) :: rest /\
    forallb (fun line => negb (is_context_line line)) cf = true.
Proof. exact (buildfile_application_layout self cf a). Qed.

Lemma application_wins_over_context_witness :
  context both_actions_request = Some (VStr "default") /\
  exists c n d rest,
    channel both_actions_request = Some (VStr c) /\ VStr "Playback" = VStr n /\
    data both_actions_request = Some (VStr d) /\
    ["Channel: SIP/1234"; "Application: Playback"; "Data: hello-world"] =
      ("Channel: " ++ c) :: ("Application: " ++ n) :: ("Data: " ++ d) :: rest /\
    forallb (fun line => negb (is_context_line line))
      ["Channel: SIP/1234"; "Application: Playback"; "Data: hello-world"] = true.
Proof.
  split; [reflexivity | ].
  apply (application_wins_over_context both_actions_request
           ["Channel: SIP/1234"; "Application: Playback"; "Data: hello-world"]
           (VStr "Playback")); reflexivity.
Defined.

(** X4.  A priority that is true and not a string (an integer such as 1)
    makes a context request fail: line 79 concatenates it to a string and
    [_buildfile] raises [TypeError]. *)
Theorem non_string_priority_raises_TypeError (self : CallFile)
    (c x e : string) (a p : value) :
  channel self = Some (VStr c) -> application self = Some a -> truthy a = false ->
  context self = Some (VStr x) -> extension self = Some (VStr e) ->
  priority self = Some p -> x <> "" -> e <> "" ->
  truthy p = true -> (forall s, p <> VStr s) ->
  _buildfile self = Raise TypeError.
Proof.
  intros Hc Ha Ta Hx He Hp Nx Ne Tp Np.
  rewrite buildfile_split. unfold _buildfile_action.
  rewrite (context_given self x e p Hx He Hp Nx Ne), Tp. unfold getattr.
  rewrite Hc, Ha, Hx, He, Hp. cbn [bind str_add]. rewrite Ta.
  cbn [bind str_add app].
  destruct p; try reflexivity. exfalso. apply (Np s). reflexivity.
Qed.

Lemma non_string_priority_raises_TypeError_witness :
  _buildfile (assign context_request [("priority", VInt 1)]) = Raise TypeError.
Proof.
  apply (non_string_priority_raises_TypeError _ "SIP/1234" "default" "s"
           VNone (VInt 1)); try reflexivity; intros; discriminate.
Defined.

(** X5.  An application request whose [data] is not a string (left at
    [None], say) fails: line 75 concatenates it to a string and [_buildfile]
    raises [TypeError]. *)
Theorem non_string_data_raises_TypeError (self : CallFile)
    (c n : string) (d : value) :
  channel self = Some (VStr c) -> application self = Some (VStr n) -> n <> "" ->
  data self = Some d -> (forall s, d <> VStr s) ->
  _buildfile self = Raise TypeError.
Proof.
  intros Hc Hn Nn Hd Nd.
  rewrite buildfile_split. unfold _buildfile_action, getattr.
  rewrite Hc, Hn, Hd. cbn [bind str_add]. rewrite (truthy_nonempty n Nn).
  cbn [bind str_add app].
  destruct d; try reflexivity. exfalso. apply (Nd s). reflexivity.
Qed.

Lemma non_string_data_raises_TypeError_witness :
  _buildfile (assign (playback_request VNone (VStr spool_path))
                     [("data", VNone)]) = Raise TypeError.
Proof.
  apply (non_string_data_raises_TypeError _ "SIP/1234" "Playback" VNone);
    try reflexivity; intros; discriminate.
Defined.



Lemma context_action_given_raises (self : CallFile) :
  raises_only (fun e => e = AttributeError) (context_action_given self).
Proof. unfold context_action_given. raises. Qed.

Lemma options_raise (self : CallFile) (cf : list string) :
  raises_only (fun e => e = AttributeError \/ e = ValueError)
    (_buildfile_options self cf).
Proof. unfold _buildfile_options. raises. Qed.

(** X7.  [UnknownError] comes out of [_buildfile] exactly when the channel
    is a string, the [application] attribute is there and false, and the
    test [context and extension and priority] is false: it is the error of
    a request with no action, and of nothing else. *)
Theorem UnknownError_exactly_when_no_action (self : CallFile) :
  _buildfile self = Raise UnknownError <->
  exists c a,
    channel self = Some (VStr c) /\ application self = Some a /\
    truthy a = false /\ context_action_given self = Ok false.
Proof.
  rewrite buildfile_split. split.
  - unfold _buildfile_action, getattr.
    destruct (channel self) as [[ | | | c | | ] | ]; cbn [bind str_add];
      try (intros H; discriminate H).
    destruct (application self) as [a | ]; cbn [bind];
      try (intros H; discriminate H).
    destruct (truthy a) eqn:Ta.
    + intros H. exfalso. revert H.
      match goal with
      | |- ?m = _ -> False =>
          assert (R : raises_only (fun e => e <> UnknownError) m)
      end.
      { apply raises_only_bind; [ | intros head ].
        - raises; discriminate.
        - intros e He. destruct (options_raise self head e He) as [-> | ->]; discriminate. }
      intros H. apply (R _ H). reflexivity.
    + destruct (context_action_given self) as [[ | ] | e] eqn:Eg; cbn [bind].
      * intros H. exfalso. revert H.
        match goal with
        | |- ?m = _ -> False =>
            assert (R : raises_only (fun e => e <> UnknownError) m)
        end.
        { apply raises_only_bind; [ | intros head ].
          - raises; discriminate.
          - intros e He. destruct (options_raise self head e He) as [-> | ->]; discriminate. }
        intros H. apply (R _ H). reflexivity.
      * intros _. exists c, a. repeat split; reflexivity || assumption.
      * intros H. injection H as ->.
        pose proof (context_action_given_raises self _ Eg) as E.
        discriminate E.
  - intros (c & a & Hc & Ha & Ta & Hg).
    unfold _buildfile_action, getattr.
    rewrite Hc, Ha. cbn [bind str_add]. rewrite Ta, Hg. reflexivity.
Qed.

(** X9.  A [set_var] that is true and not a dict (a string such as
    [FOO=1]) makes a request whose channel and action are in order fail:
    line 84 calls [items] on it and [_buildfile] raises [AttributeError]. *)
Theorem non_dict_set_var_raises_AttributeError (self : CallFile)
    (head : list string) (sv : value) :
  _buildfile_action self = Ok head ->
  set_var self = Some sv -> truthy sv = true ->
  (forall kvs, sv <> VDict kvs) ->
  _buildfile self = Raise AttributeError.
Proof.
  intros Hh Hsv Ts Nd. rewrite buildfile_split, Hh. cbn [bind].
  unfold _buildfile_options, getattr. rewrite Hsv. cbn [bind]. rewrite Ts.
  destruct sv as [ | | | | kvs | ]; try reflexivity.
  exfalso. apply (Nd kvs). reflexivity.
Qed.

Lemma non_dict_set_var_raises_AttributeError_witness :
  _buildfile (assign (playback_request VNone (VStr spool_path))
                     [("set_var", VStr "FOO=1")]) = Raise AttributeError.
Proof.
  apply (non_dict_set_var_raises_AttributeError _
           ["Channel: SIP/1234"; "Application: Playback"; "Data: hello-world"]
           (VStr "FOO=1")); try reflexivity.
  intros kvs H; discriminate H.
Defined.

(* ================================================================== *)
(** * How often each directive appears *)

Lemma prefix_nil (s : string) : prefix "" s = true.
Proof. destruct s; reflexivity. Qed.

Lemma filter_set_lines_same (kvs : list (value * value)) :
  filter (has_key "Set") (map set_line kvs) = map set_line kvs.
Proof.
  induction kvs as [ | kv kvs IH]; [reflexivity | ].
  cbn [map filter]. rewrite IH.
  unfold has_key, set_line. cbn. rewrite prefix_nil. reflexivity.
Qed.

Lemma filter_set_lines_other (key : string) (kvs : list (value * value)) :
  prefix "S" key = false ->
  filter (has_key key) (map set_line kvs) = [].
Proof.
  intros H. induction kvs as [ | kv kvs IH]; [reflexivity | ].
  cbn [map filter]. rewrite IH.
  unfold has_key, set_line.
  destruct key as [ | k key]; [reflexivity | ].
  cbn. destruct (ascii_dec k "S") as [-> | ]; [ | reflexivity].
  cbn in H. rewrite prefix_nil in H. discriminate H.
Qed.

Lemma filter_set_directives_same (sv : value) :
  filter (has_key "Set") (set_directives sv) = set_directives sv.
Proof.
  destruct sv as [ | | | | kvs | ]; try reflexivity.
  apply filter_set_lines_same.
Qed.

Lemma filter_set_directives_other (key : string) (sv : value) :
  prefix "S" key = false ->
  filter (has_key key) (set_directives sv) = [].
Proof.
  intros H. destruct sv as [ | | | | kvs | ]; try reflexivity.
  apply filter_set_lines_other, H.
Qed.

Ltac count_lines :=
  unfold option_lines; rewrite ?filter_app;
  rewrite ?filter_set_directives_same;
  rewrite ?filter_set_directives_other by reflexivity;
  unfold directive, archive_directive;
  repeat match goal with
         | |- context [truthy ?v] => destruct (truthy v)
         end;
  cbn; rewrite ?prefix_nil; cbn; rewrite ?app_nil_r; reflexivity.

(** X8.  In the lines [_buildfile] returns each directive appears as often
    as its field says: one [Channel] line; the [Set] lines of the mapping
    and no other; one [Callerid], [WaitTime], [Maxretries], [RetryTime],
    [Account] line when the field is true and none otherwise; one
    [Archive: yes] when [archive] is true and none otherwise. *)
Theorem each_directive_appears_as_its_field_says (self : CallFile)
    (cf : list string) :
  _buildfile self = Ok cf ->
  exists c sv cid wt mr rt acc ar,
    channel self = Some (VStr c) /\
    set_var self = Some sv /\ callerid self = Some cid /\
    wait_time self = Some wt /\ max_retries self = Some mr /\
    retry_time self = Some rt /\ account self = Some acc /\
    archive self = Some ar /\
    filter (has_key "Channel") cf = ["Channel: " ++ c] /\
    filter (has_key "Set") cf = set_directives sv /\
    filter (has_key "Callerid") cf = directive "Callerid" cid /\
    filter (has_key "WaitTime") cf = directive "WaitTime" wt /\
    filter (has_key "Maxretries") cf = directive "Maxretries" mr /\
    filter (has_key "RetryTime") cf = directive "RetryTime" rt /\
    filter (has_key "Account") cf = directive "Account" acc /\
    filter (has_key "Archive") cf = archive_directive ar.
Proof.
  intros H.
  destruct (buildfile_structure self cf H)
    as (head & sv & cid & wt & mr & rt & acc & ar & Hh & Hsv & Hcid & Hwt
        & Hmr & Hrt & Hacc & Har & _ & ->).
  destruct Hh as [(c & n & d & Hc & _ & _ & _ & ->)
                 | (c & a & x & e & p & Hc & _ & _ & _ & _ & _ & _ & _ & _ & ->)];
    exists c, sv, cid, wt, mr, rt, acc, ar;
    repeat (split; [assumption | ]);
    repeat split; count_lines.
Qed.

Lemma each_directive_appears_as_its_field_says_witness :
  exists c sv cid wt mr rt acc ar,
    channel full_request = Some (VStr c) /\
    set_var full_request = Some sv /\ callerid full_request = Some cid /\
    wait_time full_request = Some wt /\ max_retries full_request = Some mr /\
    retry_time full_request = Some rt /\ account full_request = Some acc /\
    archive full_request = Some ar /\
    filter (has_key "Channel") full_lines = ["Channel: " ++ c] /\
    filter (has_key "Set") full_lines = set_directives sv /\
    filter (has_key "Callerid") full_lines = directive "Callerid" cid /\
    filter (has_key "WaitTime") full_lines = directive "WaitTime" wt /\
    filter (has_key "Maxretries") full_lines = directive "Maxretries" mr /\
    filter (has_key "RetryTime") full_lines = directive "RetryTime" rt /\
    filter (has_key "Account") full_lines = directive "Account" acc /\
    filter (has_key "Archive") full_lines = archive_directive ar.
Proof.
  apply (each_directive_appears_as_its_field_says full_request full_lines).
  reflexivity.
Defined.

(* ================================================================== *)
(** * The temporary file *)

Lemma string_app_assoc (a b c : string) : (a ++ b) ++ c = a ++ b ++ c.
Proof.
  induction a as [ | ch a IH]; [reflexivity | ].
  simpl. rewrite IH. reflexivity.
Qed.

Lemma string_app_nil_r (a : string) : a ++ "" = a.
Proof.
  induction a as [ | ch a IH]; [reflexivity | simpl; rewrite IH; reflexivity].
Qed.

Lemma file_text_cons (line : string) (cf : list string) :
  file_text (line :: cf) = line ++ newline ++ file_text cf.
Proof.
  unfold file_text. cbn [map]. destruct cf as [ | l2 cf].
  - cbn [map String.concat]. rewrite string_app_nil_r. reflexivity.
  - cbn [map String.concat]. cbn [append]. apply string_app_assoc.
Qed.

Lemma file_text_is_joined_lines (cf : list string) :
  cf <> [] -> file_text cf = String.concat newline cf ++ newline.
Proof.
  induction cf as [ | line cf IH]; [intros H; contradiction | intros _].
  rewrite file_text_cons. destruct cf as [ | l2 cf].
  - reflexivity.
  - rewrite IH by discriminate.
    cbn [String.concat]. rewrite !string_app_assoc. reflexivity.
Qed.

Lemma buildfile_lines_not_empty (self : CallFile) (cf : list string) :
  _buildfile self = Ok cf -> cf <> [].
Proof.
  intros H.
  destruct (buildfile_structure self cf H)
    as (head & sv & cid & wt & mr & rt & acc & ar & Hh & _ & _ & _ & _ & _ & _ & _ & _ & ->).
  destruct Hh as [(c & n & d & _ & _ & _ & _ & ->)
                 | (c & a & x & e & p & _ & _ & _ & _ & _ & _ & _ & _ & _ & ->)];
    discriminate.
Qed.

Lemma make_temp_spec (os : OS) (suffix : string) (dir : option string)
    (tr : trace) :
  make_temp os suffix dir tr =
  match os_mkstemp os suffix dir with
  | Some fname => (Ok fname, (tr ++ [Mkstemp suffix dir])%list)
  | None =>
      if match dir with Some d => has_nul d | None => false end
      then (Raise ValueError, tr)
      else (Raise OSError, (tr ++ [Mkstemp suffix dir])%list)
  end.
Proof.
  unfold make_temp, bindM, perform, ret, raise.
  destruct (os_mkstemp os suffix dir); [reflexivity | ].
  destruct (match dir with Some d => has_nul d | None => false end); reflexivity.
Qed.

Lemma writefile_spec (os : OS) (self : CallFile) (cf : list string) (tr : trace) :
  _writefile os self cf tr =
  match tmpdir self with
  | None => (Raise AttributeError, tr)
  | Some td =>
      if truthy td && negb (match td with VStr _ => true | _ => false end)
      then (Raise TypeError, tr)
      else
        match os_mkstemp os ".call" (chosen_dir td) with
        | None =>
            if match chosen_dir td with Some d => has_nul d | None => false end
            then (Raise ValueError, tr)
            else (Raise OSError, (tr ++ [Mkstemp ".call" (chosen_dir td)])%list)
        | Some fname =>
            (if os_write os fname (file_text cf) then Ok fname else Raise OSError,
             (tr ++ [Mkstemp ".call" (chosen_dir td);
                     WriteFile fname (file_text cf)])%list)
        end
  end.
Proof.
  assert (Hstep : forall dir,
            (fname <- make_temp os ".call" dir;
             write os fname (file_text cf);;
             ret fname)%sys tr =
            match os_mkstemp os ".call" dir with
            | None =>
                if match dir with Some d => has_nul d | None => false end
                then (Raise ValueError, tr)
                else (Raise OSError, (tr ++ [Mkstemp ".call" dir])%list)
            | Some fname =>
                (if os_write os fname (file_text cf) then Ok fname
                 else Raise OSError,
                 (tr ++ [Mkstemp ".call" dir; WriteFile fname (file_text cf)])%list)
            end).
  { intros dir. unfold bindM at 1. rewrite make_temp_spec.
    destruct (os_mkstemp os ".call" dir) as [fname | ].
    - unfold write, bindM, perform, ret, raise.
      destruct (os_write os fname (file_text cf)); rewrite <- app_assoc; reflexivity.
    - destruct (match dir with Some d => has_nul d | None => false end);
        reflexivity. }
  unfold _writefile. unfold bindM at 1. unfold lift, getattr.
  destruct (tmpdir self) as [td | ]; [ | reflexivity].
  destruct td as [ | [ | ] | n | d | [ | kv kvs] | cls text];
    cbn [truthy andb negb chosen_dir mkstemp];
    try exact (Hstep None); try reflexivity.
  - destruct (n =? 0)%Z; cbn [negb]; [exact (Hstep None) | reflexivity].
  - destruct (String.eqb d ""); cbn [negb];
      [exact (Hstep None) | exact (Hstep (Some d))].
Qed.

Lemma tmpdir_usable (td : value) :
  (truthy td = true -> exists d, td = VStr d) ->
  truthy td && negb (match td with VStr _ => true | _ => false end) = false.
Proof.
  intros H. destruct (truthy td) eqn:T; [ | reflexivity].
  destruct (H eq_refl) as (d & ->). reflexivity.
Qed.

(** X10.  [_writefile] asks [mkstemp] for a file with the suffix [.call],
    in [tmpdir] when that is a non-empty string and in the default place
    when it is [None] or empty; it writes every line followed by a newline
    and returns the name of the file created. *)
Theorem writefile_creates_and_fills_the_file (os : OS) (self : CallFile)
    (cf : list string) (tr : trace) (td : value) (fname : string) :
  tmpdir self = Some td -> (truthy td = true -> exists d, td = VStr d) ->
  os_mkstemp os ".call" (chosen_dir td) = Some fname ->
  os_write os fname (file_text cf) = true ->
  _writefile os self cf tr =
    (Ok fname,
     (tr ++ [Mkstemp ".call" (chosen_dir td); WriteFile fname (file_text cf)])%list).
Proof.
  intros Htd Dtd Hmk Hwr.
  rewrite writefile_spec, Htd, (tmpdir_usable td Dtd), Hmk, Hwr. reflexivity.
Qed.

Lemma writefile_creates_and_fills_the_file_witness :
  _writefile (system true true true true)
             (assign (playback_request VNone (VStr spool_path))
                     [("tmpdir", VStr "/var/tmp")])
             ["Channel: SIP/1234"; "Archive: yes"] [] =
    (Ok "/var/tmp/tmpk3x9.call",
     [Mkstemp ".call" (Some "/var/tmp");
      WriteFile "/var/tmp/tmpk3x9.call"
        (file_text ["Channel: SIP/1234"; "Archive: yes"])]).
Proof.
  apply (writefile_creates_and_fills_the_file (system true true true true)
           (assign (playback_request VNone (VStr spool_path))
                   [("tmpdir", VStr "/var/tmp")])
           ["Channel: SIP/1234"; "Archive: yes"] [] (VStr "/var/tmp")
           "/var/tmp/tmpk3x9.call"); try reflexivity.
  intros _. eexists. reflexivity.
Defined.

Lemma writefile_ok_inv (os : OS) (self : CallFile) (cf : list string)
    (tr tr' : trace) (fname : string) :
  _writefile os self cf tr = (Ok fname, tr') ->
  exists td,
    tmpdir self = Some td /\
    os_mkstemp os ".call" (chosen_dir td) = Some fname /\
    os_write os fname (file_text cf) = true /\
    tr' = (tr ++ [Mkstemp ".call" (chosen_dir td);
                  WriteFile fname (file_text cf)])%list.
Proof.
  rewrite writefile_spec. destruct (tmpdir self) as [td | ]; [ | discriminate].
  destruct (truthy td && _); [discriminate | ].
  destruct (os_mkstemp os ".call" (chosen_dir td)) as [f | ] eqn:Hm.
  2:{ destruct (match chosen_dir td with Some d => has_nul d | None => false end);
        discriminate. }
  destruct (os_write os f (file_text cf)) eqn:Hw; [ | discriminate].
  intros H. injection H as <- <-. exists td. repeat split; assumption.
Qed.

(** X11.  The text of the temporary file is the [contents] property
    followed by one newline: when [_buildfile] returns lines and
    [_writefile] writes them, [contents] returns a text and the one write
    made is of that text and a final newline. *)
Theorem written_text_is_contents_and_newline (os : OS) (self : CallFile)
    (cf : list string) (tr tr' : trace) (fname : string) :
  _buildfile self = Ok cf ->
  _writefile os self cf tr = (Ok fname, tr') ->
  exists text dir,
    contents self = Ok text /\
    tr' = (tr ++ [Mkstemp ".call" dir; WriteFile fname (text ++ newline)])%list.
Proof.
  intros Hb Hw.
  destruct (writefile_ok_inv os self cf tr tr' fname Hw) as (td & _ & _ & _ & ->).
  exists (String.concat newline cf), (chosen_dir td). split.
  - unfold contents. rewrite Hb. reflexivity.
  - rewrite (file_text_is_joined_lines cf (buildfile_lines_not_empty self cf Hb)).
    reflexivity.
Qed.

Lemma written_text_is_contents_and_newline_witness :
  exists text dir,
    contents full_request = Ok text /\
    [Mkstemp ".call" None; WriteFile "/tmp/tmpk3x9.call" (file_text full_lines)] =
    ([] ++ [Mkstemp ".call" dir;
            WriteFile "/tmp/tmpk3x9.call" (text ++ newline)])%list.
Proof.
  apply (written_text_is_contents_and_newline (system true true true true)
           full_request full_lines [] _ "/tmp/tmpk3x9.call"); reflexivity.
Defined.

(* ================================================================== *)
(** * The order of the system calls *)

Lemma ascending_weaken (lo lo' : nat) (calls : list syscall) :
  lo <= lo' -> ascending lo' calls = true -> ascending lo calls = true.
Proof.
  intros Hle. destruct calls as [ | c rest]; [reflexivity | ].
  cbn [ascending]. intros H. apply andb_true_iff in H. destruct H as [H1 H2].
  apply andb_true_iff. split; [ | exact H2].
  apply Nat.leb_le. apply Nat.leb_le in H1.
  exact (Nat.le_trans _ _ _ Hle H1).
Qed.

Lemma below_weaken (hi hi' : nat) (calls : list syscall) :
  hi <= hi' -> below hi calls = true -> below hi' calls = true.
Proof.
  intros Hle. unfold below. rewrite !forallb_forall. intros H c Hc.
  specialize (H c Hc). apply Nat.ltb_lt. apply Nat.ltb_lt in H.
  exact (Nat.lt_le_trans _ _ _ H Hle).
Qed.

Lemma below_app (hi : nat) (c1 c2 : list syscall) :
  below hi (c1 ++ c2) = below hi c1 && below hi c2.
Proof. apply forallb_app. Qed.

Lemma ascending_app (lo mid : nat) (c1 c2 : list syscall) :
  ascending lo c1 = true -> below mid c1 = true -> ascending mid c2 = true ->
  lo <= mid ->
  ascending lo (c1 ++ c2) = true.
Proof.
  revert lo. induction c1 as [ | c rest IH]; intros lo H1 Hb H2 Hle.
  - exact (ascending_weaken lo mid c2 Hle H2).
  - cbn [ascending app] in *. apply andb_true_iff in H1. destruct H1 as [Hc Hrest].
    cbn [below forallb] in Hb. apply andb_true_iff in Hb. destruct Hb as [Hc' Hb].
    apply andb_true_iff. split; [exact Hc | ].
    apply IH; try assumption. apply Nat.ltb_lt in Hc'. exact Hc'.
Qed.

Lemma emits_ret {A} (lo hi : nat) (a : A) : emits lo hi (ret a).
Proof.
  intros tr r tr' H. injection H as _ <-. exists [].
  rewrite app_nil_r. repeat split.
Qed.

Lemma emits_lift {A} (lo hi : nat) (o : outcome A) : emits lo hi (lift o).
Proof.
  intros tr r tr' H. injection H as _ <-. exists [].
  rewrite app_nil_r. repeat split.
Qed.

Lemma emits_bind {A B} (lo mid hi : nat) (m : M A) (k : A -> M B) :
  lo <= mid -> mid <= hi ->
  emits lo mid m -> (forall a, emits mid hi (k a)) -> emits lo hi (bindM m k).
Proof.
  intros Hlm Hmh Hm Hk tr r tr'. unfold bindM.
  destruct (m tr) as [[a | e] tr1] eqn:E.
  - intros H. destruct (Hm _ _ _ E) as (c1 & -> & A1 & B1).
    destruct (Hk a _ _ _ H) as (c2 & -> & A2 & B2).
    exists (c1 ++ c2)%list. rewrite app_assoc. split; [reflexivity | ]. split.
    + exact (ascending_app lo mid c1 c2 A1 B1 A2 Hlm).
    + rewrite below_app, B2, (below_weaken mid hi c1 Hmh B1). reflexivity.
  - intros H. injection H as <- <-. destruct (Hm _ _ _ E) as (c1 & -> & A1 & B1).
    exists c1. repeat split; [exact A1 | exact (below_weaken mid hi c1 Hmh B1)].
Qed.

Lemma emits_writefile (os : OS) (self : CallFile) (cf : list string) :
  emits 0 2 (_writefile os self cf).
Proof.
  intros tr r tr'. rewrite writefile_spec.
  destruct (tmpdir self) as [td | ].
  - destruct (truthy td && _).
    + intros H; injection H as _ <-. exists []. rewrite app_nil_r. repeat split.
    + destruct (os_mkstemp os ".call" (chosen_dir td)) as [fname | ].
      * intros H; injection H as _ <-; eexists; repeat split.
      * destruct (match chosen_dir td with Some d => has_nul d | None => false end);
          intros H; injection H as _ <-.
        -- exists []. rewrite app_nil_r. repeat split.
        -- eexists; repeat split.
  - intros H; injection H as _ <-. exists []. rewrite app_nil_r. repeat split.
Qed.

Lemma emits_ownership (os : OS) (self : CallFile) (fname : string) :
  emits 2 4 (run_ownership os self fname).
Proof.
  intros tr r tr'.
  unfold run_ownership, bindM, lift, getattr, try_except, getpwnam, chown,
    bindM, perform, ret, raise.
  destruct (user self) as [u | ];
    [ | intros H; injection H as _ <-; exists []; rewrite app_nil_r; repeat split].
  destruct (truthy u);
    [ | intros H; injection H as _ <-; exists []; rewrite app_nil_r; repeat split].
  destruct u as [ | b | n | name | kvs | cls text];
    try (intros H; injection H as _ <-; exists []; rewrite app_nil_r;
         repeat split; fail).
  destruct (os_getpwnam os name) as [[uid gid] | ]; cbn [fst snd].
  - destruct (os_chown os fname uid gid);
      intros H; injection H as _ <-; rewrite <- app_assoc; eexists; repeat split.
  - destruct (has_nul name); intros H; injection H as _ <-.
    + exists []. rewrite app_nil_r. repeat split.
    + eexists; repeat split.
Qed.

Lemma emits_timestamp (os : OS) (fname : string) (time : option datetime) :
  emits 4 6 (run_timestamp os fname time).
Proof.
  intros tr r tr'.
  unfold run_timestamp, try_except, bindM, mktime_timetuple, utime, bindM,
    perform, ret, raise.
  destruct time as [t | ];
    [ | intros H; injection H as _ <-; exists []; rewrite app_nil_r; repeat split].
  destruct (os_mktime os t) as [secs | ].
  - destruct (os_utime os fname secs secs);
      intros H; injection H as _ <-; rewrite <- app_assoc; eexists; repeat split.
  - intros H; injection H as _ <-. eexists; repeat split.
Qed.

Lemma emits_move (os : OS) (self : CallFile) (fname : string) :
  emits 6 7 (run_move os self fname).
Proof.
  intros tr r tr'. rewrite run_move_spec.
  intros H; injection H as _ <-. exists []. rewrite app_nil_r. repeat split.
Qed.

Lemma emits_run (os : OS) (self : CallFile) (time : option datetime) :
  emits 0 7 (run os self time).
Proof.
  unfold run.
  apply (emits_bind 0 0 7); [apply Nat.le_refl | apply Nat.le_0_l | apply emits_lift | ].
  intros cf.
  apply (emits_bind 0 2 7); [apply Nat.le_0_l | repeat constructor | apply emits_writefile | ].
  intros fname.
  apply (emits_bind 2 4 7); [repeat constructor | repeat constructor | apply emits_ownership | ].
  intros _.
  apply (emits_bind 4 6 7); [repeat constructor | repeat constructor | apply emits_timestamp | ].
  intros _.
  apply (emits_bind 6 7 7); [repeat constructor | repeat constructor | apply emits_move | ].
  intros _. apply emits_ret.
Qed.

(** X12.  Whatever a run returns or raises, the system calls it made are
    in the order temporary file, text, password entry, ownership, time,
    time stamp, move, each at most once: a later step never comes before
    an earlier one and nothing is done twice. *)
Theorem system_calls_come_in_order (os : OS) (self : CallFile)
    (time : option datetime) (tr tr' : trace) (r : outcome value) :
  run os self time tr = (r, tr') ->
  exists calls, tr' = (tr ++ calls)%list /\ ascending 0 calls = true.
Proof.
  intros H. destruct (emits_run os self time tr r tr' H) as (calls & E & A & _).
  exists calls. split; assumption.
Qed.

Lemma system_calls_come_in_order_witness :
  exists calls,
    [Mkstemp ".call" None; WriteFile "/tmp/tmpk3x9.call" playback_text;
     Getpwnam "asterisk"; Chown "/tmp/tmpk3x9.call" 101 102] =
      ([] ++ calls)%list /\
    ascending 0 calls = true.
Proof.
  apply (system_calls_come_in_order (system false true true true)
           (playback_request (VStr "asterisk") (VStr spool_path)) None []
           _ (Raise NoUserError)).
  reflexivity.
Defined.

(* ================================================================== *)
(** * Runs, from the first call to the last *)

Lemma below_no_move (calls : list syscall) :
  below 6 calls = true -> forallb (fun c => negb (is_move c)) calls = true.
Proof.
  unfold below. rewrite !forallb_forall. intros H c Hc. specialize (H c Hc).
  destruct c; try reflexivity. discriminate H.
Qed.

Lemma writefile_raises (os : OS) (self : CallFile) (cf : list string)
    (tr tr' : trace) (e : exn) :
  _writefile os self cf tr = (Raise e, tr') ->
  e = AttributeError \/ e = TypeError \/ e = ValueError \/ e = OSError.
Proof.
  rewrite writefile_spec. destruct (tmpdir self) as [td | ].
  - destruct (truthy td && _).
    + intros H; injection H as <- _. auto.
    + destruct (os_mkstemp os ".call" (chosen_dir td)) as [fname | ].
      * destruct (os_write os fname (file_text cf)); intros H;
          [discriminate H | injection H as <- _; auto].
      * destruct (match chosen_dir td with Some d => has_nul d | None => false end);
          intros H; injection H as <- _; auto.
  - intros H; injection H as <- _. auto.
Qed.

Lemma ownership_raises (os : OS) (self : CallFile) (fname : string)
    (tr tr' : trace) (e : exn) :
  run_ownership os self fname tr = (Raise e, tr') ->
  e = AttributeError \/ e = NoUserError.
Proof.
  assert (R : raisesM_only (fun e => e = AttributeError \/ e = NoUserError)
                (run_ownership os self fname)).
  { unfold run_ownership. raises. }
  apply R.
Qed.

Lemma run_timestamp_applied (os : OS) (fname : string) (t : datetime) (secs : Z)
    (tr : trace) :
  os_mktime os t = Some secs ->
  run_timestamp os fname (Some t) tr =
    (Ok tt, (tr ++ [Mktime t; Utime fname secs secs])%list).
Proof.
  intros H.
  unfold run_timestamp, try_except, bindM, mktime_timetuple, utime, bindM,
    perform, ret, raise.
  rewrite H. destruct (os_utime os fname secs secs); rewrite <- app_assoc; reflexivity.
Qed.

(** Every run either fails before the move, having made calls of the
    phases before it only, or gets to the move with the file written. *)
Lemma run_cases (os : OS) (self : CallFile) (time : option datetime)
    (tr tr' : trace) (r : outcome value) :
  run os self time tr = (r, tr') ->
  (exists e calls,
      r = Raise e /\ e <> NoSpoolPermissionError /\
      tr' = (tr ++ calls)%list /\ below 6 calls = true)
  \/
  (exists cf fname td calls,
      _buildfile self = Ok cf /\ tmpdir self = Some td /\
      os_mkstemp os ".call" (chosen_dir td) = Some fname /\
      os_write os fname (file_text cf) = true /\
      ascending 2 calls = true /\ below 6 calls = true /\
      r = Raise NoSpoolPermissionError /\
      tr' = (tr ++ [Mkstemp ".call" (chosen_dir td); WriteFile fname (file_text cf)]
                ++ calls)%list).
Proof.
  intros H. unfold run, bindM, lift in H.
  destruct (_buildfile self) as [cf | e] eqn:Hb.
  2:{ left. injection H as <- <-. exists e, []. rewrite app_nil_r.
      repeat split.
      destruct (buildfile_raises self e Hb) as [-> | [-> | [-> | ->]]]; discriminate. }
  destruct (_writefile os self cf tr) as [[fname | e] tr1] eqn:Hw.
  2:{ left. injection H as <- <-.
      destruct (emits_writefile os self cf tr _ _ Hw) as (c1 & -> & _ & B1).
      exists e, c1. repeat split.
      - destruct (writefile_raises os self cf tr _ e Hw) as [-> | [-> | [-> | ->]]];
          discriminate.
      - apply (below_weaken 2 6 c1); [repeat constructor | exact B1]. }
  destruct (writefile_ok_inv os self cf tr tr1 fname Hw) as (td & Htd & Hmk & Hwr & ->).
  destruct (run_ownership os self fname _) as [[[] | e] tr2] eqn:Ho.
  2:{ left. injection H as <- <-.
      destruct (emits_ownership os self fname _ _ _ Ho) as (c2 & -> & _ & B2).
      exists e,
        ([Mkstemp ".call" (chosen_dir td); WriteFile fname (file_text cf)] ++ c2)%list.
      rewrite <- app_assoc. repeat split.
      - destruct (ownership_raises os self fname _ _ e Ho) as [-> | ->]; discriminate.
      - rewrite below_app. apply andb_true_iff. split; [reflexivity | ].
        apply (below_weaken 4 6 c2); [repeat constructor | exact B2]. }
  destruct (emits_ownership os self fname _ _ _ Ho) as (c2 & -> & A2 & B2).
  destruct (run_timestamp os fname time _) as [[[] | e] tr3] eqn:Ht.
  2:{ destruct (run_timestamp_returns os fname time
                  ((tr ++ [Mkstemp ".call" (chosen_dir td);
                           WriteFile fname (file_text cf)]) ++ c2)%list)
        as (tr3' & E).
      rewrite E in Ht. discriminate Ht. }
  destruct (emits_timestamp os fname time _ _ _ Ht) as (c3 & -> & A3 & B3).
  right. exists cf, fname, td, (c2 ++ c3)%list.
  repeat (split; [assumption || reflexivity | ]).
  split; [ exact (ascending_app 2 4 c2 c3 A2 B2 A3 ltac:(repeat constructor)) | ].
  split.
  { rewrite below_app, B3, (below_weaken 4 6 c2 ltac:(repeat constructor) B2).
    reflexivity. }
  rewrite run_move_spec in H. injection H as <- <-.
  split; [reflexivity | ]. rewrite <- !app_assoc. reflexivity.
Qed.

(** X13.  A request that does not render makes no system call: when
    [_buildfile] raises, [run] raises the same exception and the trace is
    as it was, so no temporary file is left behind. *)
Theorem validation_failure_makes_no_system_call (os : OS) (self : CallFile)
    (time : option datetime) (tr : trace) (e : exn) :
  _buildfile self = Raise e ->
  run os self time tr = (Raise e, tr).
Proof.
  intros H. unfold run, bindM, lift. rewrite H. reflexivity.
Qed.

Lemma validation_failure_makes_no_system_call_witness :
  run (system true true true true) (blank VNone (VStr spool_path))
      (Some (mk_datetime 2011 3 13 7 6 40)) [] = (Raise TypeError, []).
Proof.
  apply (validation_failure_makes_no_system_call (system true true true true)
           (blank VNone (VStr spool_path))).
  reflexivity.
Defined.

(** X14.  No instance can be used as [__init__] returns it: for every
    argument list that [__init__] accepts, [contents] raises
    [AttributeError], and so does [run], without a system call. *)
Theorem constructed_instance_cannot_run (G0 : namespace)
    (c a sv ar u td fn sd : value) (self : CallFile)
    (os : OS) (time : option datetime) (tr : trace) :
  __init__ G0 c a sv ar u td fn sd = Ok self ->
  contents self = Raise AttributeError /\
  run os self time tr = (Raise AttributeError, tr).
Proof.
  intros H.
  pose proof (buildfile_without_channel self
                (init_sets_no_channel G0 c a sv ar u td fn sd self H)) as Hb.
  split.
  - unfold contents. rewrite Hb. reflexivity.
  - unfold run, bindM, lift. rewrite Hb. reflexivity.
Qed.

Lemma constructed_instance_cannot_run_witness :
  contents (constructed (VStr "asterisk") (VStr "/var/spool/asterisk/outgoing/")) =
    Raise AttributeError /\
  run (system true true true true)
      (constructed (VStr "asterisk") (VStr "/var/spool/asterisk/outgoing/"))
      None [] = (Raise AttributeError, []).
Proof.
  apply (constructed_instance_cannot_run G sip_call playback VNone VNone
           (VStr "asterisk") VNone VNone (VStr "/var/spool/asterisk/outgoing/")).
  reflexivity.
Defined.

(** X15.  No run calls [move]: whatever the system, the instance and the
    time are, and whatever the run ends with, the calls it made are without
    a move, so nothing ever reaches the spool directory. *)
Theorem run_never_calls_move (os : OS) (self : CallFile)
    (time : option datetime) (tr tr' : trace) (r : outcome value) :
  run os self time tr = (r, tr') ->
  exists calls,
    tr' = (tr ++ calls)%list /\
    forallb (fun c => negb (is_move c)) calls = true.
Proof.
  intros H.
  destruct (run_cases os self time tr tr' r H)
    as [(e & calls & _ & _ & -> & B) | (cf & fname & td & calls & _ & _ & _ & _
                                        & _ & B & _ & ->)].
  - exists calls. split; [reflexivity | exact (below_no_move calls B)].
  - eexists. split; [reflexivity | ].
    cbn [forallb app is_move negb andb]. exact (below_no_move calls B).
Qed.

Lemma run_never_calls_move_witness :
  exists calls,
    [Mkstemp ".call" None; WriteFile "/tmp/tmpk3x9.call" playback_text;
     Getpwnam "asterisk"; Chown "/tmp/tmpk3x9.call" 101 102;
     Mktime (mk_datetime 2011 3 13 7 6 40);
     Utime "/tmp/tmpk3x9.call" 1300000000 1300000000] = ([] ++ calls)%list /\
    forallb (fun c => negb (is_move c)) calls = true.
Proof.
  apply (run_never_calls_move (system true true true true)
           (playback_request (VStr "asterisk") (VStr "/srv/spool/"))
           (Some (mk_datetime 2011 3 13 7 6 40)) [] _
           (Raise NoSpoolPermissionError)).
  reflexivity.
Defined.

(** X16.  A run that fails with anything but [NoSpoolPermissionError] has
    not called [move]: a request that does not render, a temporary file that
    cannot be made or written, an unknown user or a rejected [chown] leave
    the spool directory untouched. *)
Theorem failure_before_the_move_moves_nothing (os : OS) (self : CallFile)
    (time : option datetime) (tr tr' : trace) (e : exn) :
  run os self time tr = (Raise e, tr') ->
  e <> NoSpoolPermissionError ->
  exists calls,
    tr' = (tr ++ calls)%list /\
    forallb (fun c => negb (is_move c)) calls = true.
Proof.
  intros H Ne.
  destruct (run_cases os self time tr tr' (Raise e) H)
    as [(e' & calls & E & _ & -> & B) | (cf & fname & td & calls & _ & _ & _ & _
                                         & _ & _ & Hr & _)].
  - exists calls. split; [reflexivity | exact (below_no_move calls B)].
  - injection Hr as ->. contradiction.
Qed.

Lemma failure_before_the_move_moves_nothing_witness :
  exists calls,
    [Mkstemp ".call" None; WriteFile "/tmp/tmpk3x9.call" playback_text;
     Getpwnam "nobody"] = ([] ++ calls)%list /\
    forallb (fun c => negb (is_move c)) calls = true.
Proof.
  apply (failure_before_the_move_moves_nothing (system true true true true)
           (playback_request (VStr "nobody") (VStr spool_path)) None [] _
           NoUserError).
  - reflexivity.
  - intros H; discriminate H.
Defined.

Lemma run_ownership_not_a_name (os : OS) (self : CallFile) (fname : string)
    (u : value) (tr : trace) :
  user self = Some u -> truthy u = true -> (forall s, u <> VStr s) ->
  run_ownership os self fname tr = (Raise NoUserError, tr).
Proof.
  intros Hu Tu Nu. unfold run_ownership, bindM, lift, getattr. rewrite Hu, Tu.
  unfold try_except, getpwnam, bindM, raise.
  destruct u as [ | b | n | name | kvs | cls text]; try reflexivity.
  exfalso. apply (Nu name). reflexivity.
Qed.

(** X17.  When every call succeeds, a run with a user name and a time
    makes six calls and then stops with [NoSpoolPermissionError], short of
    the move: the temporary file is made and written, the user is looked up
    and the file given to the uid and gid found, the time is converted and
    set as both access and modification time. *)
Theorem complete_run_stops_before_the_move (os : OS) (self : CallFile)
    (cf : list string) (td : value) (u fname : string) (uid gid secs : Z)
    (t : datetime) (tr : trace) :
  _buildfile self = Ok cf ->
  tmpdir self = Some td -> (truthy td = true -> exists s, td = VStr s) ->
  user self = Some (VStr u) -> u <> "" ->
  all_succeed os (chosen_dir td) fname (file_text cf) u uid gid t secs ->
  run os self (Some t) tr =
    (Raise NoSpoolPermissionError,
     (tr ++ [Mkstemp ".call" (chosen_dir td); WriteFile fname (file_text cf);
             Getpwnam u; Chown fname uid gid;
             Mktime t; Utime fname secs secs])%list).
Proof.
  intros Hb Htd Dtd Hu Nu (Hmk & Hwr & Hpw & Hch & Hmt & _).
  unfold run, bindM, lift. rewrite Hb.
  rewrite writefile_spec, Htd, (tmpdir_usable td Dtd), Hmk, Hwr.
  rewrite (run_ownership_applied os self fname u uid gid _ Hu Nu Hpw Hch).
  rewrite (run_timestamp_applied os fname t secs _ Hmt).
  rewrite run_move_spec.
  rewrite <- !app_assoc. reflexivity.
Qed.

Lemma complete_run_stops_before_the_move_witness :
  run (system true true true true)
      (playback_request (VStr "asterisk") (VStr "/srv/spool/"))
      (Some (mk_datetime 2011 3 13 7 6 40)) [] =
    (Raise NoSpoolPermissionError,
     [Mkstemp ".call" None; WriteFile "/tmp/tmpk3x9.call" playback_text;
      Getpwnam "asterisk"; Chown "/tmp/tmpk3x9.call" 101 102;
      Mktime (mk_datetime 2011 3 13 7 6 40);
      Utime "/tmp/tmpk3x9.call" 1300000000 1300000000]).
Proof.
  apply (complete_run_stops_before_the_move (system true true true true)
           (playback_request (VStr "asterisk") (VStr "/srv/spool/"))
           ["Channel: SIP/1234"; "Application: Playback"; "Data: hello-world"]
           VNone "asterisk" "/tmp/tmpk3x9.call" 101 102 1300000000
           (mk_datetime 2011 3 13 7 6 40) []); try reflexivity.
  - intros H; discriminate H.
  - intros H; discriminate H.
  - repeat split.
Defined.

(** X18.  Without a user and without a time a run makes two calls, the
    temporary file is made and written, and then stops with
    [NoSpoolPermissionError]: no password entry is looked up, no ownership
    changed, no time set, and the file is not moved. *)
Theorem plain_run_stops_after_the_write (os : OS) (self : CallFile)
    (cf : list string) (td u : value) (fname : string) (tr : trace) :
  _buildfile self = Ok cf ->
  tmpdir self = Some td -> (truthy td = true -> exists s, td = VStr s) ->
  user self = Some u -> truthy u = false ->
  os_mkstemp os ".call" (chosen_dir td) = Some fname ->
  os_write os fname (file_text cf) = true ->
  run os self None tr =
    (Raise NoSpoolPermissionError,
     (tr ++ [Mkstemp ".call" (chosen_dir td);
             WriteFile fname (file_text cf)])%list).
Proof.
  intros Hb Htd Dtd Hu Tu Hmk Hwr.
  unfold run, bindM, lift. rewrite Hb.
  rewrite writefile_spec, Htd, (tmpdir_usable td Dtd), Hmk, Hwr.
  rewrite (run_ownership_no_user os self fname u _ Hu Tu).
  rewrite run_timestamp_skipped.
  rewrite run_move_spec. reflexivity.
Qed.

Lemma plain_run_stops_after_the_write_witness :
  run (system false false false true)
      (playback_request VNone (VStr "/srv/spool/")) None [] =
    (Raise NoSpoolPermissionError,
     [Mkstemp ".call" None; WriteFile "/tmp/tmpk3x9.call" playback_text]).
Proof.
  apply (plain_run_stops_after_the_write (system false false false true)
           (playback_request VNone (VStr "/srv/spool/"))
           ["Channel: SIP/1234"; "Application: Playback"; "Data: hello-world"]
           VNone VNone "/tmp/tmpk3x9.call" []); try reflexivity.
  intros H; discriminate H.
Defined.

(** X19.  When [mkstemp] cannot make the temporary file, the run stops
    there with the error of that step, not one of the package's: the
    system's [OSError] after the one call, or [ValueError] with no call at
    all when the directory name has a NUL character.  Nothing is written,
    looked up or changed. *)
Theorem temp_file_failure_stops_the_run (os : OS) (self : CallFile)
    (time : option datetime) (cf : list string) (td : value) (tr : trace) :
  _buildfile self = Ok cf ->
  tmpdir self = Some td -> (truthy td = true -> exists s, td = VStr s) ->
  os_mkstemp os ".call" (chosen_dir td) = None ->
  run os self time tr =
    if match chosen_dir td with Some d => has_nul d | None => false end
    then (Raise ValueError, tr)
    else (Raise OSError, (tr ++ [Mkstemp ".call" (chosen_dir td)])%list).
Proof.
  intros Hb Htd Dtd Hmk.
  unfold run, bindM, lift. rewrite Hb.
  rewrite writefile_spec, Htd, (tmpdir_usable td Dtd), Hmk.
  destruct (match chosen_dir td with Some d => has_nul d | None => false end);
    reflexivity.
Qed.

Lemma temp_file_failure_stops_the_run_witness :
  run read_only_tmp (playback_request VNone (VStr spool_path)) None [] =
    (Raise OSError, [Mkstemp ".call" None]).
Proof.
  apply (temp_file_failure_stops_the_run read_only_tmp
           (playback_request VNone (VStr spool_path)) None
           ["Channel: SIP/1234"; "Application: Playback"; "Data: hello-world"]
           VNone []); try reflexivity.
  intros H; discriminate H.
Defined.

(** X20.  A [user] that is true and not a string (a numeric uid, say) is
    reported as an unknown user: once the file is written [run] raises
    [NoUserError] without looking anything up. *)
Theorem non_string_user_raises_NoUserError (os : OS) (self : CallFile)
    (time : option datetime) (cf : list string) (td u : value) (fname : string)
    (tr : trace) :
  _buildfile self = Ok cf ->
  tmpdir self = Some td -> (truthy td = true -> exists s, td = VStr s) ->
  os_mkstemp os ".call" (chosen_dir td) = Some fname ->
  os_write os fname (file_text cf) = true ->
  user self = Some u -> truthy u = true -> (forall s, u <> VStr s) ->
  run os self time tr =
    (Raise NoUserError,
     (tr ++ [Mkstemp ".call" (chosen_dir td); WriteFile fname (file_text cf)])%list).
Proof.
  intros Hb Htd Dtd Hmk Hwr Hu Tu Nu.
  unfold run, bindM, lift. rewrite Hb.
  rewrite writefile_spec, Htd, (tmpdir_usable td Dtd), Hmk, Hwr.
  rewrite (run_ownership_not_a_name os self fname u _ Hu Tu Nu). reflexivity.
Qed.

Lemma non_string_user_raises_NoUserError_witness :
  run (system true true true true)
      (playback_request (VInt 101) (VStr "/srv/spool/")) None [] =
    (Raise NoUserError,
     [Mkstemp ".call" None; WriteFile "/tmp/tmpk3x9.call" playback_text]).
Proof.
  apply (non_string_user_raises_NoUserError (system true true true true)
           (playback_request (VInt 101) (VStr "/srv/spool/")) None
           ["Channel: SIP/1234"; "Application: Playback"; "Data: hello-world"]
           VNone (VInt 101) "/tmp/tmpk3x9.call" []); try reflexivity;
    intros; discriminate.
Defined.

(** X21.  With a spool directory that is not a string (a path object, say)
    no run succeeds and no move is attempted: line 175 fails inside the
    [try], and the bare [except] reports it as [NoSpoolPermissionError]. *)
Theorem non_string_spool_dir_never_delivers (os : OS) (self : CallFile)
    (time : option datetime) (sd : value) (tr tr' : trace) (r : outcome value) :
  spool_dir self = Some sd -> (forall s, sd <> VStr s) ->
  run os self time tr = (r, tr') ->
  (exists e, r = Raise e) /\
  exists calls,
    tr' = (tr ++ calls)%list /\
    forallb (fun c => negb (is_move c)) calls = true.
Proof.
  intros Hsd Nsd H.
  destruct (run_cases os self time tr tr' r H)
    as [(e & calls & -> & _ & -> & B) | (cf & fname & td & calls & _ & _ & _ & _
                                         & _ & B & -> & ->)].
  - split; [exists e; reflexivity | ].
    exists calls. split; [reflexivity | exact (below_no_move calls B)].
  - split; [eexists; reflexivity | ].
    eexists. split; [reflexivity | ].
    cbn [forallb app is_move negb andb]. exact (below_no_move calls B).
Qed.

Lemma non_string_spool_dir_never_delivers_witness :
  (exists e, Raise NoSpoolPermissionError = @Raise value e) /\
  exists calls,
    [Mkstemp ".call" None; WriteFile "/tmp/tmpk3x9.call" playback_text] =
      ([] ++ calls)%list /\
    forallb (fun c => negb (is_move c)) calls = true.
Proof.
  apply (non_string_spool_dir_never_delivers (system true true true true)
           (playback_request VNone (VObject "Path" "/srv/spool")) None
           (VObject "Path" "/srv/spool") []).
  - reflexivity.
  - intros s H; discriminate H.
  - reflexivity.
Defined.
